(** * Custom File Explorer: clipboard, paste and delete handlers

    A shallow embedding of [customfileExplorer.py] (class [CustomPopup]):
    the selection collector, the copy / paste / delete handlers and the
    navigation handlers, together with the properties of the clipboard
    reconciliation logic.

    Conventions.
    - A path is a Python [str]; it is modelled as a [string] of bytes
      (UTF-8).  The separators ['/'] and ['.'] are ASCII, so the split
      points computed on bytes are those computed on code points.
    - [os.path] is [posixpath].
    - The filesystem, the Qt item model and the process environment are
      an interface ([Platform]); the handlers are written against it.
      [ToyFS] is one small instance, used to run the handlers on
      concrete inputs. *)

From Stdlib Require Import ZArith Lia Ascii String.
From stdpp Require Import base strings gmap list pretty.

Definition path := string.

(** ** Python string primitives used by [posixpath] *)

Module pystr.

(** [s.rfind(c)] for a one-character [c]: the highest index of [c] in [s],
    or [-1].  [i] is the index of the head of [s]. *)
Fixpoint rfind_from (c : ascii) (s : string) (i : Z) : Z :=
  match s with
  | EmptyString => (-1)%Z
  | String a s' =>
      let r := rfind_from c s' (i + 1)%Z in
      if (0 <=? r)%Z then r
      else if Ascii.eqb a c then i else (-1)%Z
  end.

Definition rfind (s : string) (c : ascii) : Z := rfind_from c s 0%Z.

(** [s[i:]] and [s[:i]] for [0 <= i] (the only way posixpath uses them). *)
Fixpoint drop_n (n : nat) (s : string) : string :=
  match n, s with
  | O, _ => s
  | S n', String _ s' => drop_n n' s'
  | S _, EmptyString => EmptyString
  end.

Fixpoint take_n (n : nat) (s : string) : string :=
  match n, s with
  | O, _ => EmptyString
  | S n', String a s' => String a (take_n n' s')
  | S _, EmptyString => EmptyString
  end.

Definition slice_from (s : string) (i : Z) : string := drop_n (Z.to_nat i) s.
Definition slice_to (s : string) (i : Z) : string := take_n (Z.to_nat i) s.

(** [s[i:i+1]]: a string of length one, or empty when out of range. *)
Definition char_at (s : string) (i : Z) : string :=
  take_n 1 (slice_from s i).

Definition startswith (s pre : string) : bool := String.prefix pre s.

Fixpoint endswith_char (s : string) (c : ascii) : bool :=
  match s with
  | EmptyString => false
  | String a EmptyString => Ascii.eqb a c
  | String _ s' => endswith_char s' c
  end.

(** [s.strip()].  Python strips the characters for which [str.isspace()]
    holds: U+0009 to U+000D, U+001C to U+0020, U+0085, U+00A0, U+1680,
    U+2000 to U+200A, U+2028, U+2029, U+202F, U+205F and U+3000.  On the
    UTF-8 bytes of the string these are the one-, two- and three-byte
    sequences below. *)
Definition is_space1 (a : ascii) : bool :=
  let n := Ascii.nat_of_ascii a in
  ((9 <=? n)%nat && (n <=? 13)%nat) || ((28 <=? n)%nat && (n <=? 32)%nat).

Definition is_space2 (a b : ascii) : bool :=
  let m := Ascii.nat_of_ascii a in
  let n := Ascii.nat_of_ascii b in
  (m =? 194)%nat && ((n =? 133)%nat || (n =? 160)%nat).

Definition is_space3 (a b c : ascii) : bool :=
  let l := Ascii.nat_of_ascii a in
  let m := Ascii.nat_of_ascii b in
  let n := Ascii.nat_of_ascii c in
  ((l =? 225)%nat && (m =? 154)%nat && (n =? 128)%nat) ||
  ((l =? 226)%nat && (m =? 128)%nat &&
     (((128 <=? n)%nat && (n <=? 138)%nat) ||
      (n =? 168)%nat || (n =? 169)%nat || (n =? 175)%nat)) ||
  ((l =? 226)%nat && (m =? 129)%nat && (n =? 159)%nat) ||
  ((l =? 227)%nat && (m =? 128)%nat && (n =? 128)%nat).

(** Drop the white space characters [s] starts with. *)
Fixpoint lstrip (s : string) : string :=
  match s with
  | EmptyString => EmptyString
  | String a s1 =>
      if is_space1 a then lstrip s1
      else match s1 with
           | EmptyString => s
           | String b s2 =>
               if is_space2 a b then lstrip s2
               else match s2 with
                    | EmptyString => s
                    | String c s3 =>
                        if is_space3 a b c then lstrip s3 else s
                    end
           end
  end.

(** The same from the end: on the reversed bytes a character shows its
    last byte first. *)
Fixpoint lstrip_reversed (s : string) : string :=
  match s with
  | EmptyString => EmptyString
  | String a s1 =>
      if is_space1 a then lstrip_reversed s1
      else match s1 with
           | EmptyString => s
           | String b s2 =>
               if is_space2 b a then lstrip_reversed s2
               else match s2 with
                    | EmptyString => s
                    | String c s3 =>
                        if is_space3 c b a then lstrip_reversed s3 else s
                    end
           end
  end.

Definition rstrip (s : string) : string :=
  String.rev (lstrip_reversed (String.rev s)).

Definition strip (s : string) : string := rstrip (lstrip s).

(** [s] is a sequence of white space characters and nothing else. *)
Fixpoint all_space (s : string) : bool :=
  match s with
  | EmptyString => true
  | String a s1 =>
      if is_space1 a then all_space s1
      else match s1 with
           | EmptyString => false
           | String b s2 =>
               if is_space2 a b then all_space s2
               else match s2 with
                    | EmptyString => false
                    | String c s3 =>
                        if is_space3 a b c then all_space s3 else false
                    end
           end
  end.

(** The line feed of ["\n"]. *)
Definition nl : string := String (Ascii.ascii_of_nat 10) EmptyString.

End pystr.

(** ** [os.path] (posixpath): the pure functions *)

Module os_path.
Import pystr.

Definition sep : ascii := "/"%char.
Definition extsep : ascii := "."%char.

(** [i = p.rfind('/') + 1; return p[i:]] *)
Definition basename (p : path) : string :=
  let i := (rfind p sep + 1)%Z in
  slice_from p i.

(** [os.path.isabs(p)] *)
Definition isabs (p : path) : bool := startswith p "/".

(** [os.path.join(a, b)] with one component [b]. *)
Definition join (a b : path) : path :=
  if startswith b "/" then b
  else if (String.eqb a "" || endswith_char a sep)%bool then a +:+ b
  else a +:+ "/" +:+ b.

(** The [while filenameIndex < dotIndex] loop of [genericpath._splitext]:
    [true] when a character other than ['.'] is found in
    [p[filenameIndex:dotIndex]].  [n] is [dotIndex - filenameIndex]. *)
Fixpoint has_non_dot (p : string) (filenameIndex : Z) (n : nat) : bool :=
  match n with
  | O => false
  | S n' =>
      if negb (String.eqb (char_at p filenameIndex) ".") then true
      else has_non_dot p (filenameIndex + 1)%Z n'
  end.

(** [os.path.splitext(p)]: the extension is the last dot-suffix of the last
    component, leading dots of that component not counting. *)
Definition splitext (p : path) : string * string :=
  let sepIndex := rfind p sep in
  let dotIndex := rfind p extsep in
  if (sepIndex <? dotIndex)%Z then
    let filenameIndex := (sepIndex + 1)%Z in
    if has_non_dot p filenameIndex (Z.to_nat (dotIndex - filenameIndex))
    then (slice_to p dotIndex, slice_from p dotIndex)
    else (p, "")
  else (p, "").

End os_path.

(** ** The selection collector

    [selected_paths] walks the selected indexes of the list view, asks the
    model for the path of each and keeps the first occurrence of every
    path. *)

Section Collector.

Context {QModelIndex : Type} (filePath : QModelIndex → path).

(** The [for idx in selection] loop, with its two accumulators. *)
Fixpoint collect (selection : list QModelIndex)
    (paths : list path) (seen : gset path) : list path :=
  match selection with
  | [] => paths
  | idx :: rest =>
      let p := filePath idx in
      if decide (p ∉ seen)
      then collect rest (paths ++ [p]) (seen ∪ {[p]})
      else collect rest paths seen
  end.

Definition selected_paths_of (selection : list QModelIndex) : list path :=
  collect selection [] ∅.

End Collector.

(** The reading of "deduplicated, first-seen order": keep the head, drop
    its later copies, go on. *)
Fixpoint first_seen (l : list path) : list path :=
  match l with
  | [] => []
  | p :: l' => p :: filter (λ q, q ≠ p) (first_seen l')
  end.

(** ** The platform: filesystem, process environment, Qt item model

    [outcome] is the result of a call that may raise: [Raise e] carries
    [str(e)].  A filesystem primitive gives the filesystem it leaves
    behind together with its outcome: a primitive that raises may have
    done part of its work already. *)

Inductive outcome (A : Type) : Type :=
| Ok (a : A)
| Raise (e : string).
Arguments Ok {A} a.
Arguments Raise {A} e.

Class Platform := {
  Filesystem : Type;
  (* os.path, on the live filesystem and the working directory *)
  fs_exists : Filesystem → path → bool;
  fs_isdir : Filesystem → path → bool;
  abspath : path → path;
  (* shutil and os *)
  shutil_copytree : Filesystem → path → path → Filesystem * outcome unit;
  shutil_copy2 : Filesystem → path → path → Filesystem * outcome unit;
  shutil_move : Filesystem → path → path → Filesystem * outcome unit;
  shutil_rmtree : Filesystem → path → Filesystem * outcome unit;
  os_remove : Filesystem → path → Filesystem * outcome unit;
  (* pathlib: [Path.home()], and [Path(p).parent] when it differs from [p] *)
  home : path;
  path_parent : path → option path;
  (* QFileSystemModel *)
  QModelIndex : Type;
  filePath : QModelIndex → path;
  index_isValid : Filesystem → path → bool;
}.

(** What the handlers' properties use of the contract of [os] and
    [shutil]: a directory exists; a copy takes nothing away, whether it
    completes or raises. *)
Class PlatformLaws (P : Platform) : Prop := {
  isdir_exists : ∀ fs p, fs_isdir fs p = true → fs_exists fs p = true;
  copy2_keeps : ∀ fs src dest fs' r p,
    shutil_copy2 fs src dest = (fs', r) →
    fs_exists fs p = true → fs_exists fs' p = true;
  copytree_keeps : ∀ fs src dest fs' r p,
    shutil_copytree fs src dest = (fs', r) →
    fs_exists fs p = true → fs_exists fs' p = true;
}.

(** ** Session state and its surroundings *)

(** The attributes of [CustomPopup] that the handlers read and write. *)
Record Session := {
  _clipboard_paths : list path;
  _clipboard_is_cut : bool;
  _current_path : path;
  _history : list path;
  _history_index : Z;
}.

Inductive QUrl :=
| LocalFile (p : path)      (* [isLocalFile()], [toLocalFile() = p] *)
| OtherUrl (u : string).

Definition isLocalFile (u : QUrl) : bool :=
  match u with LocalFile _ => true | OtherUrl _ => false end.

Definition toLocalFile (u : QUrl) : path :=
  match u with LocalFile p => p | OtherUrl _ => "" end.

(** The mime data of the system clipboard: [md_urls = None] when it has no
    URL list ([hasUrls()] false). *)
Record QMimeData := { md_urls : option (list QUrl) }.

Definition hasUrls (md : QMimeData) : bool :=
  match md_urls md with Some _ => true | None => false end.

Definition urls (md : QMimeData) : list QUrl := default [] (md_urls md).

(** [[u.toLocalFile() for u in urls if u.isLocalFile()]] *)
Definition local_files (md : QMimeData) : list path :=
  toLocalFile <$> filter (λ u, isLocalFile u = true) (urls md).

Inductive StandardButton := Yes | No.

(** What the user sees, in the order it happens. *)
Inductive UiEvent :=
| MsgWarning (title text : string)
| MsgInformation (title text : string)
| MsgQuestion (title text : string)
| StatusText (text : string)
| AddressText (text : string)
| SetRoot (p : path)          (* the list view shows [p] *)
| Reload                      (* the model re-reads its root *)
| OpenUrl (p : path)
| ViewMode (icons : bool)
| CloseWindow.

(** [base_name, ext = os.path.splitext(base)] and
    [f"{base_name}_copy{ext}"] *)
Definition copy_name (base : string) : string :=
  let '(base_name, ext) := os_path.splitext base in
  base_name +:+ "_copy" +:+ ext.

(** The notices of the paste loops. *)
Definition self_paste_warning (src : path) : UiEvent :=
  MsgWarning "Paste Error"
    ("Cannot paste '" +:+ os_path.basename src +:+ "' into itself.").

Definition cut_failure_warning (base fallback_error : string) : UiEvent :=
  MsgWarning "Cut/Paste Error"
    ("Failed to move '" +:+ base +:+ "': " +:+ fallback_error).

Section Explorer.

Context {P : Platform}.

Record World := {
  w_fs : Filesystem;
  w_self : Session;
  w_clipboard : option QMimeData;     (* [QApplication.clipboard().mimeData()] *)
  w_selection : list QModelIndex;     (* [list.selectionModel().selectedIndexes()] *)
  w_icon_mode : bool;                 (* [list.viewMode() == IconMode] *)
  w_ui : list UiEvent;
}.

Definition set_fs (fs : Filesystem) (w : World) : World :=
  {| w_fs := fs; w_self := w_self w; w_clipboard := w_clipboard w;
     w_selection := w_selection w; w_icon_mode := w_icon_mode w;
     w_ui := w_ui w |}.

Definition set_self (s : Session) (w : World) : World :=
  {| w_fs := w_fs w; w_self := s; w_clipboard := w_clipboard w;
     w_selection := w_selection w; w_icon_mode := w_icon_mode w;
     w_ui := w_ui w |}.

Definition set_clipboard (md : option QMimeData) (w : World) : World :=
  {| w_fs := w_fs w; w_self := w_self w; w_clipboard := md;
     w_selection := w_selection w; w_icon_mode := w_icon_mode w;
     w_ui := w_ui w |}.

Definition set_selection (sel : list QModelIndex) (w : World) : World :=
  {| w_fs := w_fs w; w_self := w_self w; w_clipboard := w_clipboard w;
     w_selection := sel; w_icon_mode := w_icon_mode w;
     w_ui := w_ui w |}.

Definition set_icon_mode (b : bool) (w : World) : World :=
  {| w_fs := w_fs w; w_self := w_self w; w_clipboard := w_clipboard w;
     w_selection := w_selection w; w_icon_mode := b;
     w_ui := w_ui w |}.

Definition show (ev : UiEvent) (w : World) : World :=
  {| w_fs := w_fs w; w_self := w_self w; w_clipboard := w_clipboard w;
     w_selection := w_selection w; w_icon_mode := w_icon_mode w;
     w_ui := w_ui w ++ [ev] |}.

(** ** The monad of handlers: state, and exceptions that keep the state *)

Definition M (A : Type) : Type := World → World * outcome A.

Definition ret {A} (a : A) : M A := λ w, (w, Ok a).

Definition bind {A B} (m : M A) (k : A → M B) : M B :=
  λ w, match m w with
       | (w', Ok a) => k a w'
       | (w', Raise e) => (w', Raise e)
       end.

(** [try: m  except Exception as e: h e] *)
Definition try_except {A} (m : M A) (h : string → M A) : M A :=
  λ w, match m w with
       | (w', Ok a) => (w', Ok a)
       | (w', Raise e) => h e w'
       end.

Definition raise {A} (e : string) : M A := λ w, (w, Raise e).

Definition gets {A} (f : World → A) : M A := λ w, (w, Ok (f w)).
Definition modify (f : World → World) : M unit := λ w, (f w, Ok tt).

Declare Scope m_scope.
Delimit Scope m_scope with M.
Notation "'let*' x := m 'in' k" := (bind m (λ x, k))
  (at level 10, x name, m at level 100, k at level 200) : m_scope.
Notation "m >> k" := (bind m (λ _, k))
  (at level 100, k at level 200, right associativity) : m_scope.
Local Open Scope m_scope.

(** [for x in xs: s = body(s, x)], the locals of the loop threaded
    through. *)
Fixpoint for_loop {A S} (xs : list A) (body : S → A → M S) (s : S) : M S :=
  match xs with
  | [] => ret s
  | x :: xs' => let* s' := body s x in for_loop xs' body s'
  end.

(** A filesystem primitive as an action: what it did stays done when it
    raises. *)
Definition fs_call (op : Filesystem → Filesystem * outcome unit) : M unit :=
  λ w, let '(fs', r) := op (w_fs w) in (set_fs fs' w, r).

Definition exists_ (p : path) : M bool := gets (λ w, fs_exists (w_fs w) p).
Definition isdir (p : path) : M bool := gets (λ w, fs_isdir (w_fs w) p).
Definition copytree (src dest : path) : M unit :=
  fs_call (λ fs, shutil_copytree fs src dest).
Definition copy2 (src dest : path) : M unit :=
  fs_call (λ fs, shutil_copy2 fs src dest).
Definition move (src dest : path) : M unit :=
  fs_call (λ fs, shutil_move fs src dest).
Definition rmtree (p : path) : M unit := fs_call (λ fs, shutil_rmtree fs p).
Definition remove (p : path) : M unit := fs_call (λ fs, os_remove fs p).

Definition warning (title text : string) : M unit :=
  modify (show (MsgWarning title text)).
Definition information (title text : string) : M unit :=
  modify (show (MsgInformation title text)).
Definition setStatus (text : string) : M unit :=
  modify (show (StatusText text)).
Definition self : M Session := gets w_self.
Definition set_attrs (f : Session → Session) : M unit :=
  modify (λ w, set_self (f (w_self w)) w).


(** ** Copy *)

Definition selected_paths : M (list path) :=
  gets (λ w, selected_paths_of filePath (w_selection w)).

(** [QUrl.fromLocalFile(p)] for each path, written to the system
    clipboard. *)
Definition _place_paths_in_system_clipboard (paths : list path) (cut : bool)
    : M unit :=
  let urls := LocalFile <$> paths in
  modify (set_clipboard (Some {| md_urls := Some urls |})) >>
  if cut then setStatus "Placed items in clipboard (cut)"
  else setStatus "Placed items in clipboard (copy)".

Definition stage (paths : list path) (is_cut : bool) (s : Session) : Session :=
  {| _clipboard_paths := paths; _clipboard_is_cut := is_cut;
     _current_path := _current_path s; _history := _history s;
     _history_index := _history_index s |}.

Definition on_copy : M unit :=
  let* paths := selected_paths in
  match paths with
  | [] => information "No selection" "Select files/folders to copy."
  | _ =>
      set_attrs (stage paths false) >>
      _place_paths_in_system_clipboard paths false >>
      setStatus ("Copied " +:+ pretty (length paths) +:+ " items")
  end.

(** ** Paste *)

(** Lines 497-499 and 539-541: the name-conflict rule.  [dest] is
    [join dest_dir base]. *)
Definition resolve_conflict (dest_dir base dest : path) : M path :=
  let* taken := exists_ dest in
  if taken then ret (os_path.join dest_dir (copy_name base))
  else ret dest.

(** [if os.path.isdir(src): shutil.copytree(src, dest)
     else: shutil.copy2(src, dest)] *)
Definition copy_item (src dest : path) : M unit :=
  let* d := isdir src in
  if d then copytree src dest else copy2 src dest.

(** The body of the loop over the system clipboard's files
    (lines 486-507). *)
Definition paste_system_entry (dest_dir src : path) : M unit :=
  try_except
    (let* present := exists_ src in
     if negb present then ret tt
     else
       let base := os_path.basename src in
       let dest := os_path.join dest_dir base in
       if decide (abspath src = abspath dest_dir) then
         modify (show (self_paste_warning src))
       else
         let* dest := resolve_conflict dest_dir base dest in
         copy_item src dest)
    (λ e, warning "Paste Error" e).

(** The locals of the internal loop: [pasted_count] and [failed_paths]. *)
Definition tally : Type := nat * list (path * string).

(** Lines 545-562: move, else copy and delete, else record the failure. *)
Definition cut_item (src dest base : path) (t : tally) : M tally :=
  let '(pasted_count, failed_paths) := t in
  try_except
    (move src dest >> ret (S pasted_count, failed_paths))
    (λ move_error,
       try_except
         (let* d := isdir src in
          (if d then copytree src dest >> rmtree src
           else copy2 src dest >> remove src) >>
          ret (S pasted_count, failed_paths))
         (λ fallback_error,
            modify (show (cut_failure_warning base fallback_error)) >>
            ret (pasted_count, failed_paths ++ [(src, fallback_error)]))).

(** The body of the loop over the internal clipboard (lines 526-573). *)
Definition paste_internal_entry (dest_dir : path) (clipboard_is_cut : bool)
    (t : tally) (src : path) : M tally :=
  try_except
    (let* present := exists_ src in
     if negb present then ret t
     else
       let base := os_path.basename src in
       let dest := os_path.join dest_dir base in
       if decide (abspath src = abspath dest_dir) then
         modify (show (self_paste_warning src)) >>
         ret t
       else
         let* dest := resolve_conflict dest_dir base dest in
         if clipboard_is_cut then cut_item src dest base t
         else copy_item src dest >> ret (S (fst t), snd t))
    (λ e,
       warning "Paste Error" e >>
       ret (fst t, snd t ++ [(src, e)])).

Definition refresh (dest_dir : path) : M unit := modify (show (SetRoot dest_dir)).

(** Lines 481-512. *)
Definition paste_from_system (dest_dir : path) (md : QMimeData) : M unit :=
  let paths := local_files md in
  for_loop paths (λ _ src, paste_system_entry dest_dir src) tt >>
  setStatus ("Pasted " +:+ pretty (length paths) +:+
             " item(s) from system clipboard") >>
  refresh dest_dir.

(** Lines 575-589: what becomes of the internal clipboard. *)
Definition settle_clipboard (clipboard_paths : list path)
    (clipboard_is_cut : bool) (t : tally) : M unit :=
  let '(pasted_count, failed_paths) := t in
  if clipboard_is_cut then
    match failed_paths with
    | _ :: _ =>
        let successful_paths :=
          filter (λ p, p ∉ failed_paths.*1) clipboard_paths in
        set_attrs (λ s, stage successful_paths (_clipboard_is_cut s) s) >>
        setStatus ("Paste partially completed (" +:+ pretty pasted_count +:+
                   " item(s), " +:+ pretty (length failed_paths) +:+ " failed)")
    | [] =>
        set_attrs (stage [] false) >>
        setStatus ("Cut/Paste completed (" +:+ pretty pasted_count +:+
                   " item(s))")
    end
  else
    setStatus ("Paste completed (" +:+ pretty pasted_count +:+ " item(s))").

(** Lines 515-593. *)
Definition paste_from_internal (dest_dir : path) : M unit :=
  let* s := self in
  match _clipboard_paths s with
  | [] => information "Clipboard is empty" "Nothing to paste."
  | _ =>
      let clipboard_paths := _clipboard_paths s in
      let clipboard_is_cut := _clipboard_is_cut s in
      let* t := for_loop clipboard_paths
                  (paste_internal_entry dest_dir clipboard_is_cut) (0, []) in
      settle_clipboard clipboard_paths clipboard_is_cut t >>
      refresh dest_dir
  end.

(** [if md and md.hasUrls()] *)
Definition system_clipboard_files (md : option QMimeData) : option QMimeData :=
  match md with
  | Some md' => if hasUrls md' then Some md' else None
  | None => None
  end.

Definition on_paste : M unit :=
  let* s := self in
  let dest_dir := _current_path s in
  let* d := isdir dest_dir in
  if negb d then
    warning "Invalid Target" "Current location is not a directory."
  else
    let* md := gets w_clipboard in
    match system_clipboard_files md with
    | Some md' => paste_from_system dest_dir md'
    | None => paste_from_internal dest_dir
    end.

(** ** Delete *)

(** The body of the loop of [on_delete] (lines 604-610). *)
Definition delete_entry (p : path) : M unit :=
  try_except
    (let* d := isdir p in
     if d then rmtree p else remove p)
    (λ e, warning "Delete error" e).

(** [answer] is what the user replies to the confirmation box. *)
Definition on_delete (answer : StandardButton) : M unit :=
  let* paths := selected_paths in
  match paths with
  | [] => information "No selection" "Select files/folders to delete."
  | _ =>
      modify (show (MsgQuestion "Delete?"
        ("Delete " +:+ pretty (length paths) +:+
         " items? This will permanently delete them."))) >>
      match answer with
      | No => ret tt
      | Yes =>
          for_loop paths (λ _ p, delete_entry p) tt >>
          modify (show Reload) >>
          setStatus ("Deleted " +:+ pretty (length paths) +:+ " items")
      end
  end.

(** *** Vocabulary for the properties of paste *)

(** The same world with another entry staged in the internal clipboard. *)
Definition with_entry (paths : list path) (is_cut : bool) (w : World) : World :=
  set_self (stage paths is_cut (w_self w)) w.

(** Every path of [w] is still there in [w']. *)
Definition nothing_removed (w w' : World) : Prop :=
  ∀ p, fs_exists (w_fs w) p = true → fs_exists (w_fs w') p = true.

(** An action relates every state to the state it leaves, whether it
    returns or raises. *)
Definition preserves {A} (R : World → World → Prop) (m : M A) : Prop :=
  ∀ w, R w (fst (m w)).

(** The cut flag is down; it stays down. *)
Definition flag_down (w : World) : Prop :=
  _clipboard_is_cut (w_self w) = false.

Definition flag_kept (w w' : World) : Prop := flag_down w → flag_down w'.

(** The attributes of the session are what they were. *)
Definition session_kept (w w' : World) : Prop := w_self w' = w_self w.

(** Copy semantics: the session is what it was and no path is gone. *)
Definition only_added (w w' : World) : Prop :=
  session_kept w w' ∧ nothing_removed w w'.

(** ** Navigation *)

(** [l[i]]: negative indexes count from the end, [IndexError] outside. *)
Definition py_index (l : list path) (i : Z) : option path :=
  let n := Z.of_nat (length l) in
  let j := if (i <? 0)%Z then (i + n)%Z else i in
  if ((j <? 0) || (n <=? j))%Z then None else l !! Z.to_nat j.

(** [l[:k]] *)
Definition py_slice_to (l : list path) (k : Z) : list path :=
  let n := Z.of_nat (length l) in
  let j := if (k <? 0)%Z then (k + n)%Z else k in
  take (Z.to_nat j) l.

Definition navigate (current : path) (history : list path) (index : Z)
    (s : Session) : Session :=
  {| _clipboard_paths := _clipboard_paths s;
     _clipboard_is_cut := _clipboard_is_cut s;
     _current_path := current; _history := history;
     _history_index := index |}.

Definition go_to_path (p : path) : M unit :=
  let* present := exists_ p in
  if negb present then
    warning "Path not found" ("The path does not exist:" +:+ pystr.nl +:+ p)
  else
    let* valid := gets (λ w, index_isValid (w_fs w) p) in
    if negb valid then
      warning "Invalid path" ("Cannot open path:" +:+ pystr.nl +:+ p)
    else
      let current := abspath p in
      set_attrs (λ s, navigate current (_history s) (_history_index s) s) >>
      modify (show (AddressText current)) >>
      modify (show (SetRoot p)) >>
      let* s := self in
      let* differs :=
        if (_history_index s =? -1)%Z then ret true
        else match py_index (_history s) (_history_index s) with
             | Some h => ret (bool_decide (h ≠ current))
             | None => raise "list index out of range"
             end in
      (if differs : bool then
         let history :=
           py_slice_to (_history s) (_history_index s + 1) ++ [current] in
         set_attrs (navigate current history (Z.of_nat (length history) - 1))
       else ret tt) >>
      setStatus current.

Definition on_back : M unit :=
  let* s := self in
  if (0 <? _history_index s)%Z then
    let index := (_history_index s - 1)%Z in
    set_attrs (navigate (_current_path s) (_history s) index) >>
    match py_index (_history s) index with
    | Some h => go_to_path h
    | None => raise "list index out of range"
    end
  else ret tt.

Definition on_up : M unit :=
  let* s := self in
  match path_parent (_current_path s) with
  | Some parent => go_to_path parent
  | None => ret tt
  end.

(** [text] is what the address bar holds. *)
Definition on_address_enter (text : string) : M unit :=
  let p := pystr.strip text in
  if String.eqb p "" then ret tt else go_to_path p.

Definition on_tree_clicked (index : QModelIndex) : M unit :=
  go_to_path (filePath index).

Definition on_item_double_clicked (index : QModelIndex) : M unit :=
  let p := filePath index in
  let* d := isdir p in
  if d then go_to_path p else modify (show (OpenUrl p)).

Definition toggle_view : M unit :=
  let* icons := gets w_icon_mode in
  modify (set_icon_mode (negb icons)) >>
  modify (show (ViewMode (negb icons))).

Inductive Key := Key_Escape | Key_Copy | Key_Paste | Key_Other.

Definition keyPressEvent (k : Key) : M unit :=
  match k with
  | Key_Escape => modify (show CloseWindow)
  | Key_Copy => on_copy
  | Key_Paste => on_paste
  | Key_Other => ret tt
  end.

(** ** The session as a transition system *)

(** What can happen to a running session: the user's actions, and the
    changes other programs make to the selection's surroundings. *)
Inductive Event :=
| CopyClicked
| PasteClicked
| DeleteClicked (answer : StandardButton)
| BackClicked
| UpClicked
| AddressEntered (text : string)
| TreeClicked (index : QModelIndex)
| ItemDoubleClicked (index : QModelIndex)
| ViewToggled
| KeyPressed (k : Key)
| SelectionChanged (selection : list QModelIndex)
| ClipboardChanged (md : option QMimeData)
| FilesystemChanged (fs : Filesystem).

Definition handle (ev : Event) : M unit :=
  match ev with
  | CopyClicked => on_copy
  | PasteClicked => on_paste
  | DeleteClicked answer => on_delete answer
  | BackClicked => on_back
  | UpClicked => on_up
  | AddressEntered text => on_address_enter text
  | TreeClicked index => on_tree_clicked index
  | ItemDoubleClicked index => on_item_double_clicked index
  | ViewToggled => toggle_view
  | KeyPressed k => keyPressEvent k
  | SelectionChanged selection => modify (set_selection selection)
  | ClipboardChanged md => modify (set_clipboard md)
  | FilesystemChanged fs => modify (set_fs fs)
  end.

(** [CustomPopup.__init__] and [_build_ui]. *)
Definition init_session : Session :=
  {| _clipboard_paths := []; _clipboard_is_cut := false;
     _current_path := home; _history := [home]; _history_index := 0 |}.

Definition init (fs : Filesystem) (md : option QMimeData) : World :=
  {| w_fs := fs; w_self := init_session; w_clipboard := md;
     w_selection := []; w_icon_mode := false;
     w_ui := [AddressText home] |}.

(** The state an event leaves behind, whether or not its handler raised. *)
Definition after (ev : Event) (w : World) : World := fst (handle ev w).

Inductive reachable : World → Prop :=
| reachable_init fs md : reachable (init fs md)
| reachable_after ev w : reachable w → reachable (after ev w).

(** *** Vocabulary for the properties of the session *)

(** An action returns: no exception leaves it. *)
Definition returns {A} (m : M A) : Prop :=
  ∀ w, ∃ a, snd (m w) = Ok a.

(** No directory twice in a row. *)
Fixpoint no_repeat (l : list path) : Prop :=
  match l with
  | a :: l' => match l' with
               | b :: _ => a ≠ b ∧ no_repeat l'
               | [] => True
               end
  | [] => True
  end.

(** The index points into the history, the directory shown is in the
    history, and the history never repeats a directory twice in a row. *)
Definition history_ok (s : Session) : Prop :=
  (0 ≤ _history_index s < Z.of_nat (length (_history s)))%Z ∧
  _current_path s ∈ _history s ∧
  no_repeat (_history s).

(** The history entry under the index is the directory shown. *)
Definition in_sync (s : Session) : Prop :=
  py_index (_history s) (_history_index s) = Some (_current_path s).

(** The navigation attributes are what they were. *)
Definition navigation_kept (w w' : World) : Prop :=
  _current_path (w_self w') = _current_path (w_self w) ∧
  _history (w_self w') = _history (w_self w) ∧
  _history_index (w_self w') = _history_index (w_self w).

(** The staged entry is what it was. *)
Definition entry_kept (w w' : World) : Prop :=
  _clipboard_paths (w_self w') = _clipboard_paths (w_self w) ∧
  _clipboard_is_cut (w_self w') = _clipboard_is_cut (w_self w).

(** The filesystem, and the system clipboard, are what they were. *)
Definition fs_kept (w w' : World) : Prop := w_fs w' = w_fs w.

Definition clipboard_kept (w w' : World) : Prop :=
  w_clipboard w' = w_clipboard w.

(** The events that are a copy. *)
Definition is_copy (ev : Event) : bool :=
  match ev with
  | CopyClicked | KeyPressed Key_Copy => true
  | _ => false
  end.

(** The events that are a paste. *)
Definition is_paste (ev : Event) : bool :=
  match ev with
  | PasteClicked | KeyPressed Key_Paste => true
  | _ => false
  end.

(** The events of the user, as opposed to those of other programs. *)
Definition is_user (ev : Event) : bool :=
  match ev with
  | SelectionChanged _ | ClipboardChanged _ | FilesystemChanged _ => false
  | _ => true
  end.

End Explorer.

(** ** A small filesystem

    Paths map to files (with their content) or directories.  [locked]
    paths refuse every operation on them, as a file does that the user may
    neither read nor unlink.  [pinned] paths can be read but not unlinked,
    as the entries of a read-only directory: [shutil.move] then copies
    them and fails when it comes to removing the source, and
    [shutil.rmtree] empties a pinned directory before it fails on the
    directory itself. *)

Module ToyFS.

Inductive node := File (content : string) | Dir.

Record fs := {
  nodes : list (path * node);
  locked : list path;
  pinned : list path;
}.

Fixpoint lookup_node (l : list (path * node)) (p : path) : option node :=
  match l with
  | [] => None
  | (q, n) :: l' => if String.eqb q p then Some n else lookup_node l' p
  end.

Definition exists_node (f : fs) (p : path) : bool :=
  match lookup_node (nodes f) p with Some _ => true | None => false end.

Definition is_dir (f : fs) (p : path) : bool :=
  match lookup_node (nodes f) p with Some Dir => true | _ => false end.

Definition is_locked (f : fs) (p : path) : bool :=
  existsb (String.eqb p) (locked f).

Definition is_pinned (f : fs) (p : path) : bool :=
  existsb (String.eqb p) (pinned f).

(** [Some suffix] when [p] is [root] or lies below it: [p = root ++ suffix]. *)
Definition under (root p : path) : option string :=
  if String.eqb p root then Some ""
  else if String.prefix (root +:+ "/") p
       then Some (pystr.drop_n (String.length root) p)
       else None.

Definition is_under (root p : path) : bool :=
  match under root p with Some _ => true | None => false end.

(** Strictly below [root]. *)
Definition is_inside (root p : path) : bool :=
  is_under root p && negb (String.eqb p root).

Definition without (l : list (path * node)) (p : path) : list (path * node) :=
  filter (λ e, String.eqb (fst e) p = false) l.

Definition with_nodes (l : list (path * node)) (f : fs) : fs :=
  {| nodes := l; locked := locked f; pinned := pinned f |}.

(** The copies of what is at or below [src], placed at or below [dest]. *)
Definition copies_of (f : fs) (src dest : path) : list (path * node) :=
  omap (λ e, match under src (fst e) with
             | Some suffix => Some (dest +:+ suffix, snd e)
             | None => None
             end) (nodes f).

Definition denied (p : path) : string :=
  "[Errno 13] Permission denied: '" +:+ p +:+ "'".
Definition missing (p : path) : string :=
  "[Errno 2] No such file or directory: '" +:+ p +:+ "'".
Definition file_exists (p : path) : string :=
  "[Errno 17] File exists: '" +:+ p +:+ "'".

(** [shutil.copy2]: into the directory [dest] or onto the name [dest]. *)
Definition copy2 (f : fs) (src dest : path) : fs * outcome unit :=
  if is_locked f src then (f, Raise (denied src))
  else match lookup_node (nodes f) src with
       | None => (f, Raise (missing src))
       | Some Dir => (f, Raise ("[Errno 21] Is a directory: '" +:+ src +:+ "'"))
       | Some (File c) =>
           let target :=
             if is_dir f dest then os_path.join dest (os_path.basename src)
             else dest in
           if String.eqb target src then
             (f, Raise ("'" +:+ src +:+ "' and '" +:+ target +:+
                        "' are the same file"))
           else if is_dir f target then
             (f, Raise ("[Errno 21] Is a directory: '" +:+ target +:+ "'"))
           else
             (with_nodes ((target, File c) :: without (nodes f) target) f,
              Ok tt)
       end.

(** [shutil.copytree]: [dest] must not exist. *)
Definition copytree (f : fs) (src dest : path) : fs * outcome unit :=
  if is_locked f src then (f, Raise (denied src))
  else match lookup_node (nodes f) src with
       | None => (f, Raise (missing src))
       | Some (File _) =>
           (f, Raise ("[Errno 20] Not a directory: '" +:+ src +:+ "'"))
       | Some Dir =>
           if exists_node f dest then (f, Raise (file_exists dest))
           else if is_under src dest then
             (f, Raise ("[Errno 36] File name too long: '" +:+ dest +:+ "'"))
           else (with_nodes (nodes f ++ copies_of f src dest) f, Ok tt)
       end.

(** [shutil.move]: into the directory [dest] or onto the name [dest].  It
    renames; where the rename is refused (a pinned source) it copies and
    then removes the source, and raises when that removal fails. *)
Definition move (f : fs) (src dest : path) : fs * outcome unit :=
  if is_locked f src then (f, Raise (denied src))
  else match lookup_node (nodes f) src with
  | None => (f, Raise (missing src))
  | Some n =>
    let real_dst :=
      if is_dir f dest then os_path.join dest (os_path.basename src)
      else dest in
    if is_dir f dest && exists_node f real_dst then
      (f, Raise ("Destination path '" +:+ real_dst +:+ "' already exists"))
    else if is_dir f src && is_under src real_dst then
      (f, Raise ("Cannot move a directory '" +:+ src +:+ "' into itself '" +:+
                 dest +:+ "'."))
    else if is_pinned f src then
      match n with
      | Dir =>
          if exists_node f real_dst then (f, Raise (file_exists real_dst))
          else
            (with_nodes
               (filter (λ e, is_inside src (fst e) = false) (nodes f) ++
                copies_of f src real_dst) f,
             Raise (denied src))
      | File c =>
          (with_nodes ((real_dst, File c) :: without (nodes f) real_dst) f,
           Raise (denied src))
      end
    else
      (with_nodes
         ((λ e, match under src (fst e) with
                | Some suffix => (real_dst +:+ suffix, snd e)
                | None => e
                end) <$> without (nodes f) real_dst) f,
       Ok tt)
  end.

Definition remove (f : fs) (p : path) : fs * outcome unit :=
  if is_locked f p || is_pinned f p then (f, Raise (denied p))
  else match lookup_node (nodes f) p with
       | None => (f, Raise (missing p))
       | Some Dir => (f, Raise ("[Errno 21] Is a directory: '" +:+ p +:+ "'"))
       | Some (File _) => (with_nodes (without (nodes f) p) f, Ok tt)
       end.

Definition rmtree (f : fs) (p : path) : fs * outcome unit :=
  if existsb (is_under p) (locked f) then (f, Raise (denied p))
  else match lookup_node (nodes f) p with
       | None => (f, Raise (missing p))
       | Some (File _) =>
           (f, Raise ("[Errno 20] Not a directory: '" +:+ p +:+ "'"))
       | Some Dir =>
           if is_pinned f p then
             (with_nodes (filter (λ e, is_inside p (fst e) = false) (nodes f)) f,
              Raise (denied p))
           else
             (with_nodes (filter (λ e, is_under p (fst e) = false) (nodes f)) f,
              Ok tt)
       end.

(** Paths of the toy world are absolute and normalised already, or
    relative to the home directory. *)
Definition toy_abspath (p : path) : path :=
  if pystr.startswith p "/" then p else os_path.join "/home/user" p.

Definition toy_parent (p : path) : option path :=
  if String.eqb p "/" then None
  else let i := pystr.rfind p os_path.sep in
       Some (if (i <=? 0)%Z then "/" else pystr.slice_to p i).

Definition platform : Platform := {|
  Filesystem := fs;
  fs_exists := exists_node;
  fs_isdir := is_dir;
  abspath := toy_abspath;
  shutil_copytree := copytree;
  shutil_copy2 := copy2;
  shutil_move := move;
  shutil_rmtree := rmtree;
  os_remove := remove;
  home := "/home/user";
  path_parent := toy_parent;
  QModelIndex := path;
  filePath := λ index, index;
  index_isValid := exists_node;
|}.

#[export] Existing Instance platform.

(** A disk to run the handlers on. *)
Definition disk : fs :=
  {| nodes := [("/", Dir); ("/home", Dir); ("/home/user", Dir);
               ("/src", Dir); ("/src/a.txt", File "A");
               ("/src/b.txt", File "B"); ("/src/v1.2", Dir);
               ("/src/v1.2/x", File "X"); ("/dst", Dir);
               ("/dst/a.txt", File "old"); ("/dst/v1.2", Dir);
               ("/empty", Dir); ("/pin", Dir); ("/pin/x", File "P")];
     locked := ["/src/b.txt"];
     pinned := ["/pin"] |}.

(** A session showing [current], with [paths] staged. *)
Definition session (current : path) (paths : list path) (is_cut : bool)
    : Session :=
  {| _clipboard_paths := paths; _clipboard_is_cut := is_cut;
     _current_path := current; _history := [current];
     _history_index := 0 |}.

Definition world (s : Session) (md : option QMimeData)
    (selection : list path) : World :=
  {| w_fs := disk; w_self := s; w_clipboard := md;
     w_selection := selection; w_icon_mode := false; w_ui := [] |}.

Definition content (w : World) (p : path) : option node :=
  lookup_node (nodes (w_fs w)) p.

(** Two files cut and pasted into [/empty]; [/src/b.txt] is locked. *)
Definition cut_world : World :=
  world (session "/empty" ["/src/a.txt"; "/src/b.txt"] true) None [].

(** A directory cut and pasted into [/empty]; [/pin] can be read but not
    unlinked. *)
Definition pin_world : World :=
  world (session "/empty" ["/pin"] true) None [].

(** A file and a directory copied, about to be pasted next to their
    namesakes in [/dst]. *)
Definition copy_world : World :=
  world (session "/dst" ["/src/a.txt"; "/src/v1.2"] false) None
        ["/src/a.txt"; "/src/a.txt"; "/src/v1.2"].

(** The system clipboard holds a web link and nothing is staged. *)
Definition link_world : World :=
  world (session "/dst" [] false)
        (Some {| md_urls := Some [OtherUrl "https://example.org/"] |}) [].

(** The system clipboard holds a file and a web link. *)
Definition files_world : World :=
  world (session "/empty" ["/src/v1.2"] false)
        (Some {| md_urls := Some [LocalFile "/src/a.txt";
                                  OtherUrl "https://example.org/"] |}) [].

(** Nothing in either clipboard. *)
Definition empty_world : World :=
  world (session "/dst" [] false) None [].

(** The directory shown has been deleted by another program. *)
Definition lost_world : World :=
  world (session "/gone" ["/src/a.txt"] false) None [].

(** A selection of a file that exists and of one that does not. *)
Definition delete_world : World :=
  world (session "/src" [] false) None ["/src/a.txt"; "/src/gone.txt"].

(** Select, copy, let another program empty the system clipboard, paste. *)
Definition pasted_world : World :=
  after PasteClicked
    (after (ClipboardChanged None)
       (after CopyClicked
          (after (SelectionChanged ["/src/a.txt"]) (init disk None)))).

(** Type a directory into the address bar, click another in the tree, go
    back. *)
Definition visited_world : World :=
  after BackClicked
    (after (TreeClicked "/src")
       (after (AddressEntered "  /dst ") (init disk None))).

(** A string from its UTF-8 bytes. *)
Definition utf8 (bytes : list nat) : string :=
  foldr (λ n s, String (Ascii.ascii_of_nat n) s) EmptyString bytes.

(** A space, a tab, a no-break space (U+00A0), an ideographic space
    (U+3000) and a line feed. *)
Definition blank_text : string := utf8 [32; 9; 194; 160; 227; 128; 128; 10].

(** The directory visited before [/dst] has since been removed. *)
Definition stale_world : World :=
  world {| _clipboard_paths := []; _clipboard_is_cut := false;
           _current_path := "/dst"; _history := ["/old"; "/dst"];
           _history_index := 1 |} None [].

End ToyFS.

(** * Properties *)

#[local] Set Warnings "-clear-no-such-hyp".

(** ** The selection collector *)

Lemma filter_all {A} (Q : A → Prop) `{∀ x, Decision (Q x)} (l : list A) :
  (∀ x, x ∈ l → Q x) → filter Q l = l.
Proof.
  induction l as [|x l IH]; intros Hall; [done|].
  rewrite filter_cons_True by (apply Hall; left).
  f_equal. apply IH. intros y Hy. apply Hall. by right.
Qed.

Lemma filter_first_seen (Q : path → Prop) `{∀ p, Decision (Q p)} (l : list path) :
  first_seen (filter Q l) = filter Q (first_seen l).
Proof.
  induction l as [|x l IH]; [done|]. simpl.
  rewrite !filter_cons. destruct (decide (Q x)) as [Hx|Hx]; simpl.
  - rewrite IH, !list_filter_filter. f_equal.
    apply list_filter_iff. intros y. tauto.
  - rewrite IH, list_filter_filter.
    apply list_filter_iff. intros y. intuition congruence.
Qed.

Lemma elem_of_first_seen (l : list path) (p : path) :
  p ∈ first_seen l ↔ p ∈ l.
Proof.
  induction l as [|x l IH]; [done|]. simpl.
  rewrite !elem_of_cons, list_elem_of_filter, IH.
  destruct (decide (p = x)); intuition congruence.
Qed.

Lemma NoDup_first_seen (l : list path) : NoDup (first_seen l).
Proof.
  induction l as [|x l IH]; simpl; constructor.
  - rewrite list_elem_of_filter. tauto.
  - by apply NoDup_filter.
Qed.

(** The result over a longer selection extends the result over its
    beginning: a path keeps the place its first occurrence gave it. *)
Lemma first_seen_app (l1 l2 : list path) :
  first_seen (l1 ++ l2) = first_seen l1 ++ filter (λ p, p ∉ l1) (first_seen l2).
Proof.
  induction l1 as [|x l1 IH]; simpl.
  - symmetry. apply filter_all. intros ? _. apply not_elem_of_nil.
  - rewrite IH, filter_app, list_filter_filter. do 2 f_equal.
    apply list_filter_iff. intros y. set_solver.
Qed.

Section CollectorFacts.

Context {QModelIndex : Type} (filePath : QModelIndex → path).

(** The loop invariant: [seen] holds the members of [paths]. *)
Lemma collect_first_seen (selection : list QModelIndex) :
  ∀ (paths : list path) (seen : gset path),
    (∀ p, p ∈ seen ↔ p ∈ paths) →
    collect filePath selection paths seen =
    paths ++ first_seen (filter (λ p, p ∉ paths) (filePath <$> selection)).
Proof.
  induction selection as [|idx rest IH]; intros paths seen Hseen; simpl.
  - by rewrite app_nil_r.
  - rewrite filter_cons. destruct (decide (filePath idx ∉ seen)) as [Hn|Hn].
    + rewrite decide_True by (by rewrite <- Hseen).
      rewrite IH by set_solver. simpl.
      rewrite <- app_assoc. simpl. do 2 f_equal.
      rewrite <- filter_first_seen, list_filter_filter. f_equal.
      apply list_filter_iff. intros y. set_solver.
    + rewrite decide_False by (by rewrite <- Hseen).
      by apply IH.
Qed.

Lemma selected_paths_of_first_seen (selection : list QModelIndex) :
  selected_paths_of filePath selection = first_seen (filePath <$> selection).
Proof.
  unfold selected_paths_of. rewrite collect_first_seen by set_solver.
  simpl. f_equal. apply filter_all. intros ? _. apply not_elem_of_nil.
Qed.

End CollectorFacts.

(** ** The handlers, over any platform *)

Section ExplorerFacts.

Context {P : Platform}.

Ltac unfold_m :=
  unfold warning, information, setStatus, refresh, self, set_attrs,
    exists_, isdir, copytree, copy2, move, rmtree, remove, fs_call,
    try_except, bind, ret, raise, gets, modify in *.

(** *** Invalid target *)

Lemma on_paste_not_a_directory (w : World) :
  fs_isdir (w_fs w) (_current_path (w_self w)) = false →
  on_paste w =
  (show (MsgWarning "Invalid Target" "Current location is not a directory.") w,
   Ok tt).
Proof.
  intros Hdir. unfold on_paste. unfold_m. simpl. by rewrite Hdir.
Qed.

(** C4. A paste whose destination does not exist, or is not a directory,
    only shows the "Invalid Target" warning: the filesystem, the internal
    clipboard entry (paths and cut flag) and the system clipboard are what
    they were, and nothing else is shown. *)
Theorem paste_invalid_target_is_noop `{!PlatformLaws P} (w : World) :
  fs_exists (w_fs w) (_current_path (w_self w)) = false ∨
  fs_isdir (w_fs w) (_current_path (w_self w)) = false →
  let w' := fst (on_paste w) in
  w_fs w' = w_fs w ∧
  w_self w' = w_self w ∧
  w_clipboard w' = w_clipboard w ∧
  w_ui w' = w_ui w ++
    [MsgWarning "Invalid Target" "Current location is not a directory."] ∧
  snd (on_paste w) = Ok tt.
Proof.
  intros Hbad. assert (fs_isdir (w_fs w) (_current_path (w_self w)) = false) as Hdir.
  { destruct Hbad as [Hmissing|]; [|done].
    destruct (fs_isdir _ _) eqn:E; [|done].
    apply isdir_exists in E. congruence. }
  simpl. by rewrite (on_paste_not_a_directory w Hdir).
Qed.

(** *** Self-paste *)

Lemma paste_system_entry_self (dest_dir src : path) (w : World) :
  fs_exists (w_fs w) src = true →
  abspath src = abspath dest_dir →
  paste_system_entry dest_dir src w = (show (self_paste_warning src) w, Ok tt).
Proof.
  intros Hsrc Habs. unfold paste_system_entry. unfold_m. simpl.
  rewrite Hsrc. simpl. by rewrite decide_True.
Qed.

Lemma paste_internal_entry_self (dest_dir src : path) (cut : bool)
    (t : tally) (w : World) :
  fs_exists (w_fs w) src = true →
  abspath src = abspath dest_dir →
  paste_internal_entry dest_dir cut t src w =
  (show (self_paste_warning src) w, Ok t).
Proof.
  intros Hsrc Habs. unfold paste_internal_entry. unfold_m. simpl.
  rewrite Hsrc. simpl. by rewrite decide_True.
Qed.

(** C3. In either loop of a paste, and for either value of the cut flag,
    the entry that is the destination directory itself is answered by the
    "Cannot paste ... into itself" warning and by nothing else: the
    filesystem and the session are unchanged, nothing is counted or
    recorded as failed, and the loop goes on with the remaining entries. *)
Theorem self_paste_rejected `{!PlatformLaws P} (dest_dir : path) (w : World) :
  fs_isdir (w_fs w) dest_dir = true →
  let rejected := show (self_paste_warning dest_dir) w in
  w_fs rejected = w_fs w ∧ w_self rejected = w_self w ∧
  w_ui rejected = w_ui w ++
    [MsgWarning "Paste Error"
       ("Cannot paste '" +:+ os_path.basename dest_dir +:+ "' into itself.")] ∧
  paste_system_entry dest_dir dest_dir w = (rejected, Ok tt) ∧
  (∀ rest,
     for_loop (dest_dir :: rest) (λ _ src, paste_system_entry dest_dir src) tt w =
     for_loop rest (λ _ src, paste_system_entry dest_dir src) tt rejected) ∧
  (∀ cut t,
     paste_internal_entry dest_dir cut t dest_dir w = (rejected, Ok t)) ∧
  (∀ cut t rest,
     for_loop (dest_dir :: rest) (paste_internal_entry dest_dir cut) t w =
     for_loop rest (paste_internal_entry dest_dir cut) t rejected).
Proof.
  intros Hdir rejected. apply isdir_exists in Hdir.
  repeat split; try done.
  - by apply paste_system_entry_self.
  - intros rest. simpl. unfold bind at 1.
    by rewrite paste_system_entry_self.
  - intros cut t. by apply paste_internal_entry_self.
  - intros cut t rest. simpl. unfold bind at 1.
    by rewrite paste_internal_entry_self.
Qed.

(** *** Name conflicts *)

Lemma resolve_conflict_taken (dest_dir base dest : path) (w : World) :
  fs_exists (w_fs w) dest = true →
  resolve_conflict dest_dir base dest w =
  (w, Ok (os_path.join dest_dir (copy_name base))).
Proof. intros H. unfold resolve_conflict. unfold_m. simpl. by rewrite H. Qed.

Lemma resolve_conflict_free (dest_dir base dest : path) (w : World) :
  fs_exists (w_fs w) dest = false →
  resolve_conflict dest_dir base dest w = (w, Ok dest).
Proof. intros H. unfold resolve_conflict. unfold_m. simpl. by rewrite H. Qed.

(** The three loop bodies, once the source is known to exist and not to be
    the destination directory: the conflict rule, then the transfer. *)
Lemma paste_system_entry_transfer (dest_dir src : path) (w : World) :
  fs_exists (w_fs w) src = true →
  abspath src ≠ abspath dest_dir →
  paste_system_entry dest_dir src w =
  try_except
    (bind (resolve_conflict dest_dir (os_path.basename src)
             (os_path.join dest_dir (os_path.basename src)))
          (λ dest, copy_item src dest))
    (λ e, warning "Paste Error" e) w.
Proof.
  intros Hsrc Hne. unfold paste_system_entry, try_except, bind at 1, exists_, gets.
  simpl. rewrite Hsrc. simpl. by rewrite decide_False.
Qed.

Lemma paste_internal_entry_transfer (dest_dir src : path) (cut : bool)
    (t : tally) (w : World) :
  fs_exists (w_fs w) src = true →
  abspath src ≠ abspath dest_dir →
  paste_internal_entry dest_dir cut t src w =
  try_except
    (bind (resolve_conflict dest_dir (os_path.basename src)
             (os_path.join dest_dir (os_path.basename src)))
          (λ dest, if cut then cut_item src dest (os_path.basename src) t
                   else bind (copy_item src dest) (λ _, ret (S (fst t), snd t))))
    (λ e, bind (warning "Paste Error" e)
               (λ _, ret (fst t, snd t ++ [(src, e)]))) w.
Proof.
  intros Hsrc Hne. unfold paste_internal_entry, try_except, bind at 1, exists_, gets.
  simpl. rewrite Hsrc. simpl. by rewrite decide_False.
Qed.

(** C6, amended. When the computed destination is taken, the transfer of
    the entry goes to the destination directory joined with
    [base_name ++ "_copy" ++ ext], where [(base_name, ext)] is
    [os.path.splitext] of the source's base name, for files and
    directories alike, in either loop and for either value of the cut
    flag, and whether or not that second name is taken.  A base name
    without extension gets the suffix at its end, and [a.txt] becomes
    [a_copy.txt]; a file whose copy succeeds leaves the filesystem that
    [copy2] to the renamed destination gives. *)
Theorem conflict_renamed_once (dest_dir src : path) (w : World) :
  fs_exists (w_fs w) src = true →
  abspath src ≠ abspath dest_dir →
  fs_exists (w_fs w) (os_path.join dest_dir (os_path.basename src)) = true →
  let base := os_path.basename src in
  let dest := os_path.join dest_dir (copy_name base) in
  copy_name base =
    fst (os_path.splitext base) +:+ "_copy" +:+ snd (os_path.splitext base) ∧
  (os_path.splitext base = (base, "") → copy_name base = base +:+ "_copy") ∧
  (base = "a.txt" → dest = os_path.join dest_dir "a_copy.txt") ∧
  paste_system_entry dest_dir src w =
    try_except (copy_item src dest) (λ e, warning "Paste Error" e) w ∧
  (∀ t, paste_internal_entry dest_dir false t src w =
        try_except
          (bind (copy_item src dest) (λ _, ret (S (fst t), snd t)))
          (λ e, bind (warning "Paste Error" e)
                     (λ _, ret (fst t, snd t ++ [(src, e)]))) w) ∧
  (∀ t, paste_internal_entry dest_dir true t src w =
        try_except
          (cut_item src dest base t)
          (λ e, bind (warning "Paste Error" e)
                     (λ _, ret (fst t, snd t ++ [(src, e)]))) w) ∧
  (∀ fs', fs_isdir (w_fs w) src = false →
          shutil_copy2 (w_fs w) src dest = (fs', Ok tt) →
          paste_system_entry dest_dir src w = (set_fs fs' w, Ok tt) ∧
          ∀ t, paste_internal_entry dest_dir false t src w =
               (set_fs fs' w, Ok (S (fst t), snd t))).
Proof.
  intros Hsrc Hne Htaken base dest.
  assert (∀ A (k : path → M A) h,
    try_except
      (bind (resolve_conflict dest_dir base (os_path.join dest_dir base)) k) h w
    = try_except (k dest) h w) as Hres.
  { intros A k h. unfold try_except, bind.
    by rewrite resolve_conflict_taken. }
  split; [|split; [|split; [|split; [|split; [|split]]]]].
  - unfold copy_name. by destruct (os_path.splitext base).
  - intros E. unfold copy_name. by rewrite E.
  - intros E. unfold dest. by rewrite E.
  - rewrite paste_system_entry_transfer by done. apply Hres.
  - intros t. rewrite paste_internal_entry_transfer by done.
    apply (Hres _ (λ dest, bind (copy_item src dest) (λ _, ret (S (fst t), snd t)))).
  - intros t. rewrite paste_internal_entry_transfer by done.
    apply (Hres _ (λ dest, cut_item src dest base t)).
  - intros fs' Hfile Hcopy. split; [|intros t].
    + rewrite paste_system_entry_transfer by done. rewrite Hres.
      unfold copy_item. unfold_m. simpl. rewrite Hfile. simpl. by rewrite Hcopy.
    + rewrite paste_internal_entry_transfer by done.
      rewrite (Hres _ (λ dest, bind (copy_item src dest) (λ _, ret (S (fst t), snd t)))).
      unfold copy_item. unfold_m. simpl. rewrite Hfile. simpl. by rewrite Hcopy.
Qed.

(** *** Entries are isolated from one another *)

(** Whatever happens inside, a loop body hands the loop its locals back:
    no exception leaves it. *)
Lemma paste_system_entry_returns (dest_dir src : path) (w : World) :
  ∃ w', paste_system_entry dest_dir src w = (w', Ok tt).
Proof.
  unfold paste_system_entry, try_except.
  match goal with |- context [match ?m w with _ => _ end] => destruct (m w) as [w1 [[]|e]] end;
    eauto.
Qed.

Lemma paste_internal_entry_returns (dest_dir src : path) (cut : bool)
    (t : tally) (w : World) :
  ∃ w' t', paste_internal_entry dest_dir cut t src w = (w', Ok t').
Proof.
  unfold paste_internal_entry, try_except.
  match goal with |- context [match ?m w with _ => _ end] => destruct (m w) as [w1 [t1|e]] end;
    eauto.
Qed.

Lemma delete_entry_returns (p : path) (w : World) :
  ∃ w', delete_entry p w = (w', Ok tt).
Proof.
  unfold delete_entry, try_except.
  match goal with |- context [match ?m w with _ => _ end] => destruct (m w) as [w1 [[]|e]] end;
    eauto.
Qed.

Lemma for_loop_cons {A S} (x : A) (xs : list A) (body : S → A → M S)
    (s s' : S) (w w' : World) :
  body s x w = (w', Ok s') →
  for_loop (x :: xs) body s w = for_loop xs body s' w'.
Proof. intros H. simpl. unfold bind. by rewrite H. Qed.

(** *** Cut: move, else copy and delete *)

Lemma cut_item_unfold (src dest base : path) (n : nat)
    (failed : list (path * string)) (w : World) :
  let moved := shutil_move (w_fs w) src dest in
  let copied := if fs_isdir (fst moved) src
                then shutil_copytree (fst moved) src dest
                else shutil_copy2 (fst moved) src dest in
  let deleted := if fs_isdir (fst moved) src
                 then shutil_rmtree (fst copied) src
                 else os_remove (fst copied) src in
  let failed_with := λ e fs',
    (show (cut_failure_warning base e) (set_fs fs' w),
     Ok (n, failed ++ [(src, e)])) in
  cut_item src dest base (n, failed) w =
  match snd moved with
  | Ok _ => (set_fs (fst moved) w, Ok (S n, failed))
  | Raise _ =>
      match snd copied with
      | Raise e => failed_with e (fst copied)
      | Ok _ =>
          match snd deleted with
          | Ok _ => (set_fs (fst deleted) w, Ok (S n, failed))
          | Raise e => failed_with e (fst deleted)
          end
      end
  end.
Proof.
  simpl. unfold cut_item. unfold_m. simpl.
  destruct (shutil_move _ _ _) as [fs1 [[]|e1]]; [done|]. simpl.
  destruct (fs_isdir fs1 src); simpl.
  - destruct (shutil_copytree _ _ _) as [fs2 [[]|e2]]; [|done]. simpl.
    by destruct (shutil_rmtree _ _) as [fs3 [[]|e2]].
  - destruct (shutil_copy2 _ _ _) as [fs2 [[]|e2]]; [|done]. simpl.
    by destruct (os_remove _ _) as [fs3 [[]|e2]].
Qed.

Lemma cut_item_returns (src dest base : path) (t : tally) (w : World) :
  ∃ w' t', cut_item src dest base t w = (w', Ok t').
Proof.
  destruct t as [n failed]. rewrite cut_item_unfold. cbv zeta.
  destruct (snd (shutil_move _ _ _)); [by eexists _, _|].
  destruct (snd (if fs_isdir _ _ then _ else _)); [|by eexists _, _].
  destruct (snd (if fs_isdir _ _ then _ else _)); by eexists _, _.
Qed.

(** C7, amended. The body of the loop for a cut entry that exists and is
    not the destination directory, with the destination the conflict rule
    gives: [shutil.move] is called first, and when it returns the entry is
    counted and nothing else is done.  When it raises, the source is
    copied ([copytree] if it is a directory at that moment, [copy2]
    otherwise) and then deleted ([rmtree] or [os.remove]), each on the
    filesystem the call before left; when both return the entry is counted.
    When the copy or the delete raises, the entry is appended to the failed
    list with the message of that error, which is also shown, the count is
    not incremented and no further call is made: the filesystem is the one
    the last call left, with whatever the failed calls had done before
    they raised.  In every case the loop goes on with the remaining
    entries. *)
Theorem cut_move_then_fallback (dest_dir src : path) (n : nat)
    (failed : list (path * string)) (w : World) :
  fs_exists (w_fs w) src = true →
  abspath src ≠ abspath dest_dir →
  let base := os_path.basename src in
  let dest := if fs_exists (w_fs w) (os_path.join dest_dir base)
              then os_path.join dest_dir (copy_name base)
              else os_path.join dest_dir base in
  let moved := shutil_move (w_fs w) src dest in
  let copied := if fs_isdir (fst moved) src
                then shutil_copytree (fst moved) src dest
                else shutil_copy2 (fst moved) src dest in
  let deleted := if fs_isdir (fst moved) src
                 then shutil_rmtree (fst copied) src
                 else os_remove (fst copied) src in
  let counted := λ fs', (set_fs fs' w, Ok (S n, failed)) in
  let failed_with := λ e fs',
    (show (cut_failure_warning base e) (set_fs fs' w),
     Ok (n, failed ++ [(src, e)])) in
  let entry := paste_internal_entry dest_dir true (n, failed) src w in
  (* the move comes first, and is all there is when it succeeds *)
  (snd moved = Ok tt → entry = counted (fst moved)) ∧
  (* the fallback: copy, then delete *)
  (∀ e1, snd moved = Raise e1 →
     (∀ e2, snd copied = Raise e2 → entry = failed_with e2 (fst copied)) ∧
     (snd copied = Ok tt →
        (snd deleted = Ok tt → entry = counted (fst deleted)) ∧
        (∀ e2, snd deleted = Raise e2 → entry = failed_with e2 (fst deleted)))) ∧
  (* and the loop continues, from what the entry left *)
  (∀ rest, ∃ w' t',
     entry = (w', Ok t') ∧
     for_loop (src :: rest) (paste_internal_entry dest_dir true) (n, failed) w =
     for_loop rest (paste_internal_entry dest_dir true) t' w').
Proof.
  intros Hsrc Hne base dest moved copied deleted counted failed_with entry.
  assert (entry = cut_item src dest base (n, failed) w) as Hentry.
  { subst entry. rewrite paste_internal_entry_transfer by done.
    unfold try_except, bind at 1. fold base. subst dest.
    destruct (fs_exists (w_fs w) (os_path.join dest_dir base)) eqn:Htaken;
      [rewrite resolve_conflict_taken by done
      |rewrite resolve_conflict_free by done];
      match goal with
      | |- context [cut_item ?a ?b ?c ?d ?e] =>
          destruct (cut_item_returns a b c d e) as (w1 & t1 & ->)
      end; done. }
  pose proof (cut_item_unfold src dest base n failed w) as Hcut.
  cbv zeta in Hcut. fold moved in Hcut. fold copied in Hcut. fold deleted in Hcut.
  rewrite <- Hentry in Hcut. clear Hentry.
  split; [|split].
  - intros Hmove. by rewrite Hcut, Hmove.
  - intros e1 Hmove. rewrite Hcut, Hmove. split.
    + intros e2 Hcopy. by rewrite Hcopy.
    + intros Hcopy. rewrite Hcopy. split.
      * intros Hdel. by rewrite Hdel.
      * intros e2 Hdel. by rewrite Hdel.
  - intros rest.
    destruct (paste_internal_entry_returns dest_dir src true (n, failed) w)
      as (w' & t' & Hret).
    exists w', t'. split; [done|]. by apply for_loop_cons.
Qed.

(** *** Loops as folds *)

(** A loop whose body never raises runs its body on every element, each
    from the state the one before left. *)
Lemma for_loop_fold {A} (f : A → M unit) (xs : list A) :
  (∀ x w, ∃ w', f x w = (w', Ok tt)) →
  ∀ w, for_loop xs (λ _ x, f x) tt w =
       (foldl (λ w x, fst (f x w)) w xs, Ok tt).
Proof.
  intros Hret. induction xs as [|x xs IH]; intros w; [done|].
  destruct (Hret x w) as [w' Hx].
  rewrite (for_loop_cons x xs _ tt tt w w' Hx). rewrite IH. simpl. by rewrite Hx.
Qed.

(** *** Vanished sources *)

Lemma paste_system_entry_vanished (dest_dir src : path) (w : World) :
  fs_exists (w_fs w) src = false →
  paste_system_entry dest_dir src w = (w, Ok tt).
Proof.
  intros H. unfold paste_system_entry. unfold_m. simpl. by rewrite H.
Qed.

Lemma paste_internal_entry_vanished (dest_dir src : path) (cut : bool)
    (t : tally) (w : World) :
  fs_exists (w_fs w) src = false →
  paste_internal_entry dest_dir cut t src w = (w, Ok t).
Proof.
  intros H. unfold paste_internal_entry. unfold_m. simpl. by rewrite H.
Qed.

Lemma delete_entry_unfold (p : path) (w : World) :
  delete_entry p w =
  match (if fs_isdir (w_fs w) p then shutil_rmtree (w_fs w) p
         else os_remove (w_fs w) p) with
  | (fs', Ok _) => (set_fs fs' w, Ok tt)
  | (fs', Raise e) => (show (MsgWarning "Delete error" e) (set_fs fs' w), Ok tt)
  end.
Proof.
  unfold delete_entry. unfold_m. simpl.
  destruct (fs_isdir (w_fs w) p); simpl.
  - by destruct (shutil_rmtree _ _) as [fs' [[]|e]].
  - by destruct (os_remove _ _) as [fs' [[]|e]].
Qed.

(** The status a confirmed delete ends with counts every selected path. *)
Lemma on_delete_status (w : World) :
  let paths := selected_paths_of filePath (w_selection w) in
  paths ≠ [] →
  ∃ w1, on_delete Yes w =
    (show (StatusText ("Deleted " +:+ pretty (length paths) +:+ " items"))
       (show Reload w1), Ok tt).
Proof.
  intros paths Hne. unfold on_delete, selected_paths.
  unfold bind at 1. unfold gets at 1. fold paths. clearbody paths.
  destruct paths as [|p0 paths0]; [done|].
  set (paths := p0 :: paths0). unfold bind at 1. unfold modify at 1.
  unfold bind at 1.
  rewrite (for_loop_fold delete_entry paths delete_entry_returns).
  eexists. by unfold_m.
Qed.

(** C8, amended. At paste time a source that no longer exists is skipped
    in silence: its loop body changes nothing, shows nothing, records no
    failure and counts nothing, and the loop goes on.  At delete time it is
    not skipped: it is not a directory, so [os.remove] is called on it;
    when that raises, the error is shown in a "Delete error" warning; the
    loop goes on either way, and a confirmed delete whose selection holds
    the path ends with the status "Deleted N items", N being the size of
    the whole selection, the vanished path included. *)
Theorem vanished_source `{!PlatformLaws P} (p : path) (w : World) :
  fs_exists (w_fs w) p = false →
  (∀ dest_dir rest,
     paste_system_entry dest_dir p w = (w, Ok tt) ∧
     for_loop (p :: rest) (λ _ src, paste_system_entry dest_dir src) tt w =
     for_loop rest (λ _ src, paste_system_entry dest_dir src) tt w) ∧
  (∀ dest_dir cut t rest,
     paste_internal_entry dest_dir cut t p w = (w, Ok t) ∧
     for_loop (p :: rest) (paste_internal_entry dest_dir cut) t w =
     for_loop rest (paste_internal_entry dest_dir cut) t w) ∧
  (let removed := os_remove (w_fs w) p in
   let w' := match snd removed with
             | Ok _ => set_fs (fst removed) w
             | Raise e =>
                 show (MsgWarning "Delete error" e) (set_fs (fst removed) w)
             end in
   delete_entry p w = (w', Ok tt) ∧
   ∀ rest,
     for_loop (p :: rest) (λ _ q, delete_entry q) tt w =
     for_loop rest (λ _ q, delete_entry q) tt w') ∧
  (∀ w0,
     let paths := selected_paths_of filePath (w_selection w0) in
     p ∈ paths →
     snd (on_delete Yes w0) = Ok tt ∧
     last (w_ui (fst (on_delete Yes w0))) =
       Some (StatusText ("Deleted " +:+ pretty (length paths) +:+ " items"))).
Proof.
  intros Hgone. split; [|split; [|split]].
  - intros dest_dir rest.
    pose proof (paste_system_entry_vanished dest_dir p w Hgone) as H.
    split; [done|]. by apply for_loop_cons.
  - intros dest_dir cut t rest.
    pose proof (paste_internal_entry_vanished dest_dir p cut t w Hgone) as H.
    split; [done|]. by apply for_loop_cons.
  - intros removed w'.
    assert (delete_entry p w = (w', Ok tt)) as H.
    { rewrite delete_entry_unfold.
      destruct (fs_isdir (w_fs w) p) eqn:Hd.
      - apply isdir_exists in Hd. congruence.
      - subst w' removed. by destruct (os_remove _ _) as [fs' [[]|e]]. }
    split; [done|]. intros rest.
    by apply (for_loop_cons p rest (λ _ q, delete_entry q) tt tt).
  - intros w0 paths Hin.
    destruct (on_delete_status w0) as [w1 ->].
    { fold paths. intros E. rewrite E in Hin. by apply elem_of_nil in Hin. }
    fold paths. simpl. split; [done|]. by rewrite last_snoc.
Qed.

(** *** Delete *)

(** C9. A confirmed delete of a non-empty selection runs the removal of
    every selected path in turn, each from the state the previous one
    left: a removal that raises shows its error in a "Delete error"
    warning, keeps what it had removed before it raised, and the next path
    is processed all the same.  The status then reads "Deleted N items" with N the size of
    the selection, however many removals raised. *)
Theorem delete_counts_attempts (w : World) :
  let paths := selected_paths_of filePath (w_selection w) in
  let asked := show (MsgQuestion "Delete?"
    ("Delete " +:+ pretty (length paths) +:+
     " items? This will permanently delete them.")) w in
  paths ≠ [] →
  on_delete Yes w =
    (show (StatusText ("Deleted " +:+ pretty (length paths) +:+ " items"))
       (show Reload (foldl (λ w p, fst (delete_entry p w)) asked paths)),
     Ok tt) ∧
  (∀ p w0,
     delete_entry p w0 =
     match (if fs_isdir (w_fs w0) p then shutil_rmtree (w_fs w0) p
            else os_remove (w_fs w0) p) with
     | (fs', Ok _) => (set_fs fs' w0, Ok tt)
     | (fs', Raise e) =>
         (show (MsgWarning "Delete error" e) (set_fs fs' w0), Ok tt)
     end) ∧
  (∀ p rest w0,
     for_loop (p :: rest) (λ _ q, delete_entry q) tt w0 =
     for_loop rest (λ _ q, delete_entry q) tt (fst (delete_entry p w0))).
Proof.
  intros paths asked Hne. split; [|split].
  - subst asked. unfold on_delete, selected_paths.
    unfold bind at 1. unfold gets at 1. fold paths. clearbody paths.
    destruct paths as [|p0 paths0]; [done|].
    set (paths := p0 :: paths0). unfold bind at 1. unfold modify at 1.
    unfold bind at 1.
    rewrite (for_loop_fold delete_entry paths delete_entry_returns).
    by unfold_m.
  - apply delete_entry_unfold.
  - intros p rest w0. destruct (delete_entry_returns p w0) as [w' H].
    rewrite (for_loop_cons p rest (λ _ q, delete_entry q) tt tt w0 w' H).
    by rewrite H.
Qed.

(** *** The system clipboard comes first *)

Lemma paste_system_entry_effect (dest_dir src : path) (w : World) :
  ∃ w', paste_system_entry dest_dir src w = (w', Ok tt) ∧
    (w' = w ∨ (∃ ev, w' = show ev w) ∨
     ∃ fs' dest r,
       (w' = set_fs fs' w ∨ ∃ ev, w' = show ev (set_fs fs' w)) ∧
       (shutil_copytree (w_fs w) src dest = (fs', r) ∨
        shutil_copy2 (w_fs w) src dest = (fs', r))).
Proof.
  unfold paste_system_entry, resolve_conflict, copy_item. unfold_m. simpl.
  destruct (fs_exists (w_fs w) src); simpl; [|eauto].
  destruct (decide _); [eauto 6|].
  destruct (fs_exists (w_fs w) _); simpl;
    (destruct (fs_isdir (w_fs w) src); simpl;
     [destruct (shutil_copytree _ _ _) as [fs' [[]|e]] eqn:E
     |destruct (shutil_copy2 _ _ _) as [fs' [[]|e]] eqn:E];
     simpl; eauto 12).
Qed.

Lemma paste_system_entry_with_entry (dest_dir src : path)
    (paths : list path) (is_cut : bool) (w : World) :
  paste_system_entry dest_dir src (with_entry paths is_cut w) =
  (with_entry paths is_cut (fst (paste_system_entry dest_dir src w)),
   snd (paste_system_entry dest_dir src w)).
Proof.
  unfold paste_system_entry, resolve_conflict, copy_item, with_entry.
  unfold_m. simpl.
  change (w_fs (set_self (stage paths is_cut (w_self w)) w)) with (w_fs w).
  destruct (fs_exists (w_fs w) src); simpl; [|done].
  destruct (decide _); [done|].
  change (w_fs (set_self (stage paths is_cut (w_self w)) w)) with (w_fs w).
  destruct (fs_exists (w_fs w) (os_path.join _ _)); simpl;
    (destruct (fs_isdir (w_fs w) src); simpl;
     [destruct (shutil_copytree _ _ _) as [fs' [[]|e]]
     |destruct (shutil_copy2 _ _ _) as [fs' [[]|e]]];
     reflexivity).
Qed.

Lemma system_loop_effect `{!PlatformLaws P} (dest_dir : path) (files : list path) :
  ∀ w, let w' := foldl (λ w src, fst (paste_system_entry dest_dir src w)) w files in
       w_self w' = w_self w ∧ nothing_removed w w'.
Proof.
  induction files as [|src files IH]; intros w; simpl;
    [split; [done|by intros ? ?]|].
  destruct (IH (fst (paste_system_entry dest_dir src w))) as [Hs Hr].
  rewrite Hs. clear IH Hs.
  destruct (paste_system_entry_effect dest_dir src w)
    as (w1 & E & [->|[[ev ->]|(fs' & dest & r & [->|[ev ->]] & Hcopy)]]);
    rewrite E in *; simpl in *; (split; [done|]); try done;
    intros p Hp; apply Hr; simpl;
    (destruct Hcopy; [by eapply copytree_keeps|by eapply copy2_keeps]).
Qed.

Lemma system_loop_with_entry (dest_dir : path) (files : list path)
    (paths : list path) (is_cut : bool) :
  ∀ w, foldl (λ w src, fst (paste_system_entry dest_dir src w))
             (with_entry paths is_cut w) files =
       with_entry paths is_cut
         (foldl (λ w src, fst (paste_system_entry dest_dir src w)) w files).
Proof.
  induction files as [|src files IH]; intros w; simpl; [done|].
  rewrite paste_system_entry_with_entry. simpl. by rewrite IH.
Qed.

Lemma on_paste_from_system (w : World) (md : QMimeData) :
  fs_isdir (w_fs w) (_current_path (w_self w)) = true →
  w_clipboard w = Some md →
  hasUrls md = true →
  let dest_dir := _current_path (w_self w) in
  on_paste w =
  (show (SetRoot dest_dir)
     (show (StatusText ("Pasted " +:+ pretty (length (local_files md)) +:+
                        " item(s) from system clipboard"))
        (foldl (λ w0 src, fst (paste_system_entry dest_dir src w0))
               w (local_files md))),
   Ok tt).
Proof.
  intros Hdir Hmd Hurls dest_dir.
  assert (on_paste w = paste_from_system dest_dir md w) as ->.
  { unfold on_paste, bind, self, isdir, gets. simpl.
    rewrite Hdir. simpl. rewrite Hmd. simpl. by rewrite Hurls. }
  unfold paste_from_system. unfold bind at 1.
  rewrite (for_loop_fold (paste_system_entry _) (local_files md)).
  - reflexivity.
  - intros src w0. apply paste_system_entry_returns.
Qed.

Lemma on_paste_from_internal (w : World) :
  fs_isdir (w_fs w) (_current_path (w_self w)) = true →
  system_clipboard_files (w_clipboard w) = None →
  on_paste w = paste_from_internal (_current_path (w_self w)) w.
Proof.
  intros Hdir Hmd. unfold on_paste, bind, self, isdir, gets. simpl.
  rewrite Hdir. simpl. by rewrite Hmd.
Qed.

(** C5, amended. With a valid destination: when the system clipboard has
    a URL list, the paste copies the local files of that list, one entry
    after the other, and nothing else; the internal clipboard entry is
    neither written nor read (the outcome is the same whatever is staged,
    cut or copy), and no path is removed.  The internal entry is used only
    when the system clipboard has no URL list, and if it is then empty the
    paste shows "Nothing to paste." and changes nothing. *)
Theorem paste_source_order `{!PlatformLaws P} (w : World) :
  let dest_dir := _current_path (w_self w) in
  fs_isdir (w_fs w) dest_dir = true →
  (∀ md, w_clipboard w = Some md → hasUrls md = true →
     on_paste w =
       (show (SetRoot dest_dir)
          (show (StatusText ("Pasted " +:+ pretty (length (local_files md)) +:+
                             " item(s) from system clipboard"))
             (foldl (λ w0 src, fst (paste_system_entry dest_dir src w0))
                    w (local_files md))),
        Ok tt) ∧
     w_self (fst (on_paste w)) = w_self w ∧
     nothing_removed w (fst (on_paste w)) ∧
     (∀ paths is_cut,
        on_paste (with_entry paths is_cut w) =
        (with_entry paths is_cut (fst (on_paste w)), snd (on_paste w)))) ∧
  (system_clipboard_files (w_clipboard w) = None →
     on_paste w = paste_from_internal dest_dir w ∧
     (_clipboard_paths (w_self w) = [] →
        on_paste w =
        (show (MsgInformation "Clipboard is empty" "Nothing to paste.") w,
         Ok tt))).
Proof.
  intros dest_dir Hdir. split.
  - intros md Hmd Hurls.
    pose proof (on_paste_from_system w md Hdir Hmd Hurls) as Hw.
    fold dest_dir in Hw.
    destruct (system_loop_effect dest_dir (local_files md) w) as [Hs Hr].
    split; [done|]. rewrite Hw. simpl. split; [done|]. split; [done|].
    intros paths is_cut.
    rewrite (on_paste_from_system (with_entry paths is_cut w) md); try done.
    simpl. fold dest_dir. by rewrite system_loop_with_entry.
  - intros Hnone. rewrite on_paste_from_internal by done. split; [done|].
    intros Hempty. unfold paste_from_internal. unfold_m. simpl.
    fold dest_dir. by rewrite Hempty.
Qed.

(** *** What an action preserves *)

Section Preserves.

Context (R : World → World → Prop).
Hypothesis R_refl : ∀ w, R w w.
Hypothesis R_trans : ∀ w1 w2 w3, R w1 w2 → R w2 w3 → R w1 w3.

Lemma preserves_ret {A} (a : A) : preserves R (ret a).
Proof. intros w. apply R_refl. Qed.

Lemma preserves_raise {A} (e : string) : preserves R (raise (A := A) e).
Proof. intros w. apply R_refl. Qed.

Lemma preserves_gets {A} (f : World → A) : preserves R (gets f).
Proof. intros w. apply R_refl. Qed.

Lemma preserves_bind {A B} (m : M A) (k : A → M B) :
  preserves R m → (∀ a, preserves R (k a)) → preserves R (bind m k).
Proof.
  intros Hm Hk w. unfold bind. specialize (Hm w).
  destruct (m w) as [w' [a|e]]; simpl in *; [|done].
  eapply R_trans; [exact Hm|apply Hk].
Qed.

Lemma preserves_try_except {A} (m : M A) (h : string → M A) :
  preserves R m → (∀ e, preserves R (h e)) → preserves R (try_except m h).
Proof.
  intros Hm Hh w. unfold try_except. specialize (Hm w).
  destruct (m w) as [w' [a|e]]; simpl in *; [done|].
  eapply R_trans; [exact Hm|apply Hh].
Qed.

Lemma preserves_modify (f : World → World) :
  (∀ w, R w (f w)) → preserves R (modify f).
Proof. intros Hf w. apply Hf. Qed.

Lemma preserves_fs_call (op : Filesystem → Filesystem * outcome unit) :
  (∀ w fs' r, op (w_fs w) = (fs', r) → R w (set_fs fs' w)) →
  preserves R (fs_call op).
Proof.
  intros Hop w. unfold fs_call.
  destruct (op (w_fs w)) as [fs' r] eqn:E; simpl. by eapply Hop.
Qed.

Lemma preserves_for_loop {A S} (xs : list A) (body : S → A → M S) :
  (∀ s x, preserves R (body s x)) → ∀ s, preserves R (for_loop xs body s).
Proof.
  intros Hbody. induction xs as [|x xs IH]; intros s; simpl.
  - apply preserves_ret.
  - apply preserves_bind; [apply Hbody|apply IH].
Qed.

End Preserves.

(** One step of the syntax-directed proof that an action preserves [R];
    [side] settles what [modify] and the filesystem calls leave. *)
Ltac preserves_step Hrefl Htrans side :=
  first
    [ apply (preserves_ret _ Hrefl)
    | apply (preserves_raise _ Hrefl)
    | apply (preserves_gets _ Hrefl)
    | progress (cbv zeta)
    | apply (preserves_bind _ Htrans); [|intros ?]
    | apply (preserves_try_except _ Htrans); [|intros ?]
    | apply (preserves_for_loop _ Hrefl Htrans); intros ? ?
    | apply preserves_modify; intros ?; side
    | apply preserves_fs_call; intros ? ? ? ?; side
    | match goal with
      | |- preserves _ (if ?b then _ else _) => destruct b
      | |- preserves _ (match ?x with _ => _ end) => destruct x
      end ].

Ltac preserves_with Hrefl Htrans side :=
  unfold warning, information, setStatus, refresh, self, set_attrs,
    exists_, isdir, copytree, copy2, move, rmtree, remove;
  repeat preserves_step Hrefl Htrans side.

(** *** The cut flag never goes up *)

Lemma flag_kept_refl (w : World) : flag_kept w w.
Proof. by intros H. Qed.

Lemma flag_kept_trans (w1 w2 w3 : World) :
  flag_kept w1 w2 → flag_kept w2 w3 → flag_kept w1 w3.
Proof. unfold flag_kept. tauto. Qed.

Ltac flag_side := unfold flag_kept, flag_down in *; simpl; done.
Ltac keeps := preserves_with flag_kept_refl flag_kept_trans flag_side.

Lemma keeps_cut_item (src dest base : path) (t : tally) :
  preserves flag_kept (cut_item src dest base t).
Proof. unfold cut_item. destruct t. keeps. Qed.

Lemma keeps_settle_clipboard (paths : list path) (cut : bool) (t : tally) :
  preserves flag_kept (settle_clipboard paths cut t).
Proof. unfold settle_clipboard. destruct t. keeps. Qed.

Lemma keeps_on_paste : preserves flag_kept on_paste.
Proof.
  unfold on_paste, paste_from_system, paste_from_internal. keeps;
    first [apply keeps_cut_item|apply keeps_settle_clipboard].
Qed.

Lemma keeps_on_copy : preserves flag_kept on_copy.
Proof.
  unfold on_copy, selected_paths, _place_paths_in_system_clipboard. keeps.
Qed.

Lemma keeps_on_delete (answer : StandardButton) :
  preserves flag_kept (on_delete answer).
Proof. unfold on_delete, selected_paths, delete_entry. keeps. Qed.

Lemma keeps_go_to_path (p : path) : preserves flag_kept (go_to_path p).
Proof. unfold go_to_path. keeps. Qed.

Lemma keeps_handle (ev : Event) : preserves flag_kept (handle ev).
Proof.
  destruct ev; simpl.
  - apply keeps_on_copy.
  - apply keeps_on_paste.
  - apply keeps_on_delete.
  - unfold on_back. keeps; apply keeps_go_to_path.
  - unfold on_up. keeps; apply keeps_go_to_path.
  - unfold on_address_enter. keeps; apply keeps_go_to_path.
  - apply keeps_go_to_path.
  - unfold on_item_double_clicked. keeps; apply keeps_go_to_path.
  - unfold toggle_view. keeps.
  - destruct k; simpl; [keeps|apply keeps_on_copy|apply keeps_on_paste|keeps].
  - keeps.
  - keeps.
  - keeps.
Qed.

Lemma reachable_flag_down (w : World) : reachable w → flag_down w.
Proof.
  induction 1 as [fs md|ev w Hw IH]; [done|].
  by apply (keeps_handle ev w).
Qed.

(** *** Copy semantics *)

Lemma session_kept_refl (w : World) : session_kept w w.
Proof. done. Qed.

Lemma session_kept_trans (w1 w2 w3 : World) :
  session_kept w1 w2 → session_kept w2 w3 → session_kept w1 w3.
Proof. unfold session_kept. congruence. Qed.

Ltac session_side := unfold session_kept; simpl; done.
Ltac keeps_session :=
  preserves_with session_kept_refl session_kept_trans session_side.

Lemma session_kept_internal_entry (dest_dir src : path) (cut : bool) (t : tally) :
  preserves session_kept (paste_internal_entry dest_dir cut t src).
Proof.
  unfold paste_internal_entry. keeps_session.
  unfold cut_item. destruct t. keeps_session.
Qed.

Lemma only_added_refl (w : World) : only_added w w.
Proof. split; [done|by intros p Hp]. Qed.

Lemma only_added_trans (w1 w2 w3 : World) :
  only_added w1 w2 → only_added w2 w3 → only_added w1 w3.
Proof.
  intros [Hs1 Hr1] [Hs2 Hr2]. split.
  - by eapply session_kept_trans.
  - intros p Hp. apply Hr2, Hr1, Hp.
Qed.

Ltac only_added_side :=
  split; [reflexivity|];
  intros ? ?; simpl;
  first [ assumption
        | eapply copytree_keeps; eassumption
        | eapply copy2_keeps; eassumption ].
Ltac adds_only :=
  preserves_with only_added_refl only_added_trans only_added_side.

Lemma only_added_system_entry `{!PlatformLaws P} (dest_dir src : path) :
  preserves only_added (paste_system_entry dest_dir src).
Proof. unfold paste_system_entry. adds_only. Qed.

Lemma only_added_internal_entry `{!PlatformLaws P} (dest_dir src : path)
    (t : tally) :
  preserves only_added (paste_internal_entry dest_dir false t src).
Proof. unfold paste_internal_entry. adds_only. Qed.

(** With the cut flag down, a paste copies: the session's attributes are
    untouched and nothing that was there is gone. *)
Lemma on_paste_only_adds `{!PlatformLaws P} (w : World) :
  flag_down w → only_added w (fst (on_paste w)).
Proof.
  intros Hflag.
  destruct (fs_isdir (w_fs w) (_current_path (w_self w))) eqn:Hdir.
  2: { rewrite on_paste_not_a_directory by done.
       split; [done|by intros ? ?]. }
  destruct (system_clipboard_files (w_clipboard w)) as [md|] eqn:Hmd.
  - assert (on_paste w = paste_from_system (_current_path (w_self w)) md w) as ->.
    { unfold on_paste, bind, self, isdir, gets. simpl.
      rewrite Hdir. simpl. by rewrite Hmd. }
    revert w Hflag Hdir Hmd. intros w _ _ _.
    generalize (_current_path (w_self w)). intros dest_dir. revert w.
    change (preserves only_added (paste_from_system dest_dir md)).
    unfold paste_from_system. adds_only.
  - rewrite on_paste_from_internal by done.
    unfold paste_from_internal, bind at 1, self at 1, gets at 1.
    rewrite Hflag. clear Hflag Hdir Hmd.
    generalize (_current_path (w_self w)) (_clipboard_paths (w_self w)).
    intros dest_dir paths. revert w.
    match goal with
    | |- ∀ w, only_added w (fst (?m w)) => change (preserves only_added m)
    end.
    unfold settle_clipboard. adds_only.
Qed.

(** C2. In every state the session can reach, the cut flag is down.
    So the loop over the internal clipboard runs its copy branch only: an
    internal paste is the copy-mode loop followed by the "Paste completed"
    status, and a paste, from either clipboard, leaves the session's
    attributes as they were and removes no path. *)
Theorem cut_flag_never_set `{!PlatformLaws P} (w : World) :
  reachable w →
  _clipboard_is_cut (w_self w) = false ∧
  (∀ dest_dir, _clipboard_paths (w_self w) ≠ [] →
     paste_from_internal dest_dir w =
     bind (for_loop (_clipboard_paths (w_self w))
             (paste_internal_entry dest_dir false) (0, []))
          (λ t, bind (setStatus ("Paste completed (" +:+ pretty (fst t) +:+
                                 " item(s))"))
                     (λ _, refresh dest_dir)) w) ∧
  only_added w (fst (on_paste w)).
Proof.
  intros Hreach. pose proof (reachable_flag_down w Hreach) as Hflag.
  split; [done|]. split; [|by apply on_paste_only_adds].
  intros dest_dir Hne. unfold paste_from_internal, bind at 1, self at 1, gets at 1.
  rewrite Hflag. destruct (_clipboard_paths (w_self w)) as [|p l] eqn:E; [done|].
  unfold bind at 1 3.
  destruct (for_loop _ _ _ w) as [w1 [[n failed]|e]]; reflexivity.
Qed.

(** *** What a paste leaves in the internal clipboard *)

Lemma for_loop_returns {A S} (xs : list A) (body : S → A → M S) :
  (∀ s x w, ∃ w' s', body s x w = (w', Ok s')) →
  ∀ s w, ∃ w' s', for_loop xs body s w = (w', Ok s').
Proof.
  intros Hbody. induction xs as [|x xs IH]; intros s w; simpl; [by eexists _, _|].
  destruct (Hbody s x w) as (w1 & s1 & H1). unfold bind. rewrite H1. apply IH.
Qed.

Lemma paste_from_internal_unfold (dest_dir : path) (w w1 : World) (t : tally) :
  _clipboard_paths (w_self w) ≠ [] →
  for_loop (_clipboard_paths (w_self w))
    (paste_internal_entry dest_dir (_clipboard_is_cut (w_self w))) (0, []) w =
    (w1, Ok t) →
  paste_from_internal dest_dir w =
  (show (SetRoot dest_dir)
     (fst (settle_clipboard (_clipboard_paths (w_self w))
             (_clipboard_is_cut (w_self w)) t w1)),
   Ok tt).
Proof.
  intros Hne Hloop.
  unfold paste_from_internal, bind at 1, self at 1, gets at 1.
  destruct (_clipboard_paths (w_self w)) as [|p l]; [done|].
  unfold bind at 1. rewrite Hloop. unfold settle_clipboard.
  destruct t as [n failed].
  destruct (_clipboard_is_cut (w_self w)); [destruct failed|]; reflexivity.
Qed.

(** The entry staged after an internal paste, from the failed list the
    loop ends with: untouched in copy mode; emptied, flag reset, when a
    cut has no failure; and otherwise the staged paths that are not in the
    failed list, flag kept. *)
Lemma internal_paste_settles (w : World) :
  let dest_dir := _current_path (w_self w) in
  let paths := _clipboard_paths (w_self w) in
  let cut := _clipboard_is_cut (w_self w) in
  fs_isdir (w_fs w) dest_dir = true →
  system_clipboard_files (w_clipboard w) = None →
  paths ≠ [] →
  ∃ w1 pasted_count failed_paths,
    for_loop paths (paste_internal_entry dest_dir cut) (0, []) w =
      (w1, Ok (pasted_count, failed_paths)) ∧
    w_self (fst (on_paste w)) =
      if cut then
        match failed_paths with
        | [] => stage [] false (w_self w)
        | _ :: _ =>
            stage (filter (λ p, p ∉ failed_paths.*1) paths) true (w_self w)
        end
      else w_self w.
Proof.
  intros dest_dir paths cut. subst dest_dir paths cut. intros Hdir Hmd Hne.
  destruct (for_loop_returns (_clipboard_paths (w_self w))
    (paste_internal_entry (_current_path (w_self w))
       (_clipboard_is_cut (w_self w)))
    (λ s x w, paste_internal_entry_returns _ x _ s w) (0, []) w)
    as (w1 & [n failed] & Hloop).
  exists w1, n, failed. split; [done|].
  pose proof (preserves_for_loop session_kept session_kept_refl
    session_kept_trans (_clipboard_paths (w_self w))
    (paste_internal_entry (_current_path (w_self w))
       (_clipboard_is_cut (w_self w)))
    (λ s x, session_kept_internal_entry _ x _ s) (0, []) w) as Hkept.
  rewrite Hloop in Hkept. unfold session_kept in Hkept. simpl in Hkept.
  rewrite on_paste_from_internal by done.
  rewrite (paste_from_internal_unfold _ w w1 (n, failed) Hne Hloop).
  unfold settle_clipboard. unfold_m. simpl.
  destruct (_clipboard_is_cut (w_self w)) eqn:Hcut; [|by simpl].
  destruct failed; simpl; rewrite Hkept; [done|].
  by rewrite Hcut.
Qed.

(** In particular, after a cut with failures no failed path is staged any
    more, while every other staged path still is. *)
Lemma internal_paste_drops_failed (w : World) :
  let dest_dir := _current_path (w_self w) in
  let paths := _clipboard_paths (w_self w) in
  fs_isdir (w_fs w) dest_dir = true →
  system_clipboard_files (w_clipboard w) = None →
  _clipboard_is_cut (w_self w) = true →
  ∀ w1 pasted_count failed_paths,
    for_loop paths (paste_internal_entry dest_dir true) (0, []) w =
      (w1, Ok (pasted_count, failed_paths)) →
    failed_paths ≠ [] →
    _clipboard_is_cut (w_self (fst (on_paste w))) = true ∧
    ∀ p, p ∈ _clipboard_paths (w_self (fst (on_paste w))) ↔
         p ∈ paths ∧ p ∉ failed_paths.*1.
Proof.
  intros dest_dir paths. subst dest_dir paths.
  intros Hdir Hmd Hcut w1 n failed Hloop Hfailed.
  assert (_clipboard_paths (w_self w) ≠ []) as Hne.
  { intros E. rewrite E in Hloop. simpl in Hloop. unfold ret in Hloop.
    by injection Hloop as _ _ <-. }
  destruct (internal_paste_settles w Hdir Hmd Hne)
    as (w1' & n' & failed' & Hloop' & Hself).
  cbv zeta in Hloop', Hself. rewrite Hcut in Hloop', Hself.
  rewrite Hloop in Hloop'. injection Hloop' as <- <- <-.
  rewrite Hself. destruct failed as [|failure failed]; [done|]. simpl.
  split; [done|]. intros q. rewrite list_elem_of_filter. tauto.
Qed.

(** *** The collector, as the handlers call it *)

(** C10. [selected_paths] returns, without raising and without changing
    anything, the paths of the selected indexes with duplicates removed:
    no path twice, exactly the paths of the selection, each at the place
    of its first occurrence (the result over a longer selection extends
    the result over its beginning).  The paths are those the model gives,
    so they are absolute when the model's are; an empty selection gives the
    empty list. *)
Theorem selected_paths_first_seen (w : World) :
  Forall (λ index, os_path.isabs (filePath index) = true) (w_selection w) →
  let paths := selected_paths_of filePath (w_selection w) in
  selected_paths w = (w, Ok paths) ∧
  NoDup paths ∧
  (∀ p, p ∈ paths ↔ ∃ index, index ∈ w_selection w ∧ filePath index = p) ∧
  paths = first_seen (filePath <$> w_selection w) ∧
  (∀ selection1 selection2,
     w_selection w = selection1 ++ selection2 →
     selected_paths_of filePath selection1 `prefix_of` paths) ∧
  Forall (λ p, os_path.isabs p = true) paths ∧
  (w_selection w = [] → paths = []).
Proof.
  intros Habs paths.
  assert (paths = first_seen (filePath <$> w_selection w)) as Hfs
    by apply selected_paths_of_first_seen.
  assert (∀ p, p ∈ paths ↔ ∃ index, index ∈ w_selection w ∧ filePath index = p)
    as Hmem.
  { intros p. rewrite Hfs, elem_of_first_seen, list_elem_of_fmap.
    split; intros (index & H1 & H2); exists index; by split. }
  split; [done|]. split; [rewrite Hfs; apply NoDup_first_seen|].
  split; [done|]. split; [done|]. split; [|split].
  - intros selection1 selection2 E. subst paths.
    rewrite E, !selected_paths_of_first_seen, fmap_app, first_seen_app.
    by eexists.
  - apply Forall_forall. intros p Hp. apply Hmem in Hp as (index & Hin & <-).
    by eapply Forall_forall in Habs.
  - intros E. subst paths. by rewrite E.
Qed.

(** ** Navigation *)

Lemma py_index_in_range (l : list path) (i : Z) :
  (0 ≤ i < Z.of_nat (length l))%Z →
  py_index l i = l !! Z.to_nat i ∧ is_Some (l !! Z.to_nat i).
Proof.
  intros Hi. unfold py_index.
  destruct (Z.ltb_spec i 0); [lia|].
  destruct (Z.ltb_spec i 0); [lia|]. simpl.
  destruct (Z.leb_spec (Z.of_nat (length l)) i); [lia|].
  split; [done|]. apply lookup_lt_is_Some. lia.
Qed.

Lemma py_slice_to_in_range (l : list path) (k : Z) :
  (0 ≤ k)%Z → py_slice_to l k = take (Z.to_nat k) l.
Proof.
  intros Hk. unfold py_slice_to. by destruct (Z.ltb_spec k 0); [lia|].
Qed.

(** The world [go_to_path] builds before it looks at the history. *)
Lemma go_to_path_outcome (p : path) (w : World) :
  let s := w_self w in
  let current := abspath p in
  let shown :=
    show (SetRoot p) (show (AddressText current)
      (set_self (navigate current (_history s) (_history_index s) s) w)) in
  let appended := py_slice_to (_history s) (_history_index s + 1) ++ [current] in
  go_to_path p w =
  if negb (fs_exists (w_fs w) p) then
    (show (MsgWarning "Path not found"
             ("The path does not exist:" +:+ pystr.nl +:+ p)) w, Ok tt)
  else if negb (index_isValid (w_fs w) p) then
    (show (MsgWarning "Invalid path"
             ("Cannot open path:" +:+ pystr.nl +:+ p)) w, Ok tt)
  else if (_history_index s =? -1)%Z then
    (show (StatusText current)
       (set_self (navigate current appended
                    (Z.of_nat (length appended) - 1) (w_self shown)) shown),
     Ok tt)
  else match py_index (_history s) (_history_index s) with
       | None => (shown, Raise "list index out of range")
       | Some h =>
           if bool_decide (h ≠ current) then
             (show (StatusText current)
                (set_self (navigate current appended
                             (Z.of_nat (length appended) - 1) (w_self shown))
                   shown),
              Ok tt)
           else (show (StatusText current) shown, Ok tt)
       end.
Proof.
  unfold go_to_path. unfold_m. simpl.
  destruct (fs_exists (w_fs w) p); simpl; [|done].
  destruct (index_isValid (w_fs w) p); simpl; [|done].
  destruct (_history_index (w_self w) =? -1)%Z; simpl; [done|].
  destruct (py_index _ _) as [h|]; simpl; [|done].
  by destruct (bool_decide (h ≠ abspath p)).
Qed.

Lemma no_repeat_cons_inv (a : path) (l : list path) :
  no_repeat (a :: l) → no_repeat l.
Proof. destruct l; simpl; tauto. Qed.

Lemma no_repeat_take (n : nat) (l : list path) :
  no_repeat l → no_repeat (take n l).
Proof.
  revert n. induction l as [|a l IH]; intros n H; destruct n; try done.
  pose proof (IH n (no_repeat_cons_inv _ _ H)) as IHn.
  change (take (S n) (a :: l)) with (a :: take n l).
  destruct l as [|b l]; [by destruct n|].
  destruct n; [done|]. simpl in *. tauto.
Qed.

Lemma no_repeat_snoc (l : list path) (x : path) :
  no_repeat l → last l ≠ Some x → no_repeat (l ++ [x]).
Proof.
  induction l as [|a l IH]; intros H Hlast; [done|].
  destruct l as [|b l].
  - simpl in *. split; [congruence|done].
  - change (no_repeat (a :: (b :: l) ++ [x])).
    change (a ≠ b ∧ no_repeat ((b :: l) ++ [x])).
    simpl in H. split; [tauto|]. apply IH; [tauto|done].
Qed.

Lemma last_take_S (l : list path) (i : nat) (h : path) :
  l !! i = Some h → last (take (S i) l) = Some h.
Proof.
  intros H. rewrite last_lookup, length_take.
  pose proof (lookup_lt_Some _ _ _ H).
  replace (Nat.pred (S i `min` length l)) with i by lia.
  rewrite lookup_take_lt by lia. done.
Qed.

Lemma go_to_path_invalid (p : path) (w : World) :
  fs_exists (w_fs w) p = false ∨ index_isValid (w_fs w) p = false →
  ∃ title text, go_to_path p w = (show (MsgWarning title text) w, Ok tt).
Proof.
  intros Hbad. rewrite go_to_path_outcome. cbv zeta.
  destruct (fs_exists (w_fs w) p); simpl; [|by eexists _, _].
  destruct Hbad as [|Hv]; [done|]. rewrite Hv. simpl. by eexists _, _.
Qed.

Lemma go_to_path_valid (p : path) (w : World) :
  (0 ≤ _history_index (w_self w) < Z.of_nat (length (_history (w_self w))))%Z →
  fs_exists (w_fs w) p = true →
  index_isValid (w_fs w) p = true →
  let s := w_self w in
  let s' := w_self (fst (go_to_path p w)) in
  snd (go_to_path p w) = Ok tt ∧
  w_fs (fst (go_to_path p w)) = w_fs w ∧
  _current_path s' = abspath p ∧
  _clipboard_paths s' = _clipboard_paths s ∧
  _clipboard_is_cut s' = _clipboard_is_cut s ∧
  (py_index (_history s) (_history_index s) = Some (abspath p) →
     _history s' = _history s ∧ _history_index s' = _history_index s) ∧
  (py_index (_history s) (_history_index s) ≠ Some (abspath p) →
     _history s' =
       take (Z.to_nat (_history_index s + 1)) (_history s) ++ [abspath p] ∧
     _history_index s' = (_history_index s + 1)%Z) ∧
  in_sync s' ∧
  (no_repeat (_history s) → history_ok s').
Proof.
  intros Hidx Hex Hvalid s s'. subst s s'.
  rewrite go_to_path_outcome. cbv zeta. rewrite Hex, Hvalid. simpl negb. cbv iota.
  destruct (Z.eqb_spec (_history_index (w_self w)) (-1)); [lia|].
  destruct (py_index_in_range _ _ Hidx) as [Hpy [h Hh]].
  rewrite Hpy, Hh.
  rewrite py_slice_to_in_range by lia.
  assert (length (take (Z.to_nat (_history_index (w_self w) + 1))
                       (_history (w_self w))) =
          Z.to_nat (_history_index (w_self w) + 1)) as Hlen
    by (rewrite length_take; lia).
  destruct (bool_decide_reflect (h ≠ abspath p)) as [Hne|Heq]; simpl.
  - assert (py_index
              (take (Z.to_nat (_history_index (w_self w) + 1))
                    (_history (w_self w)) ++ [abspath p])
              (Z.of_nat (length
                 (take (Z.to_nat (_history_index (w_self w) + 1))
                       (_history (w_self w)) ++ [abspath p])) - 1)
            = Some (abspath p)) as Hsync.
    { match goal with
      | |- py_index ?l ?i = _ =>
          assert (0 ≤ i < Z.of_nat (length l))%Z as Hin
            by (rewrite length_app; simpl; lia);
          rewrite (proj1 (py_index_in_range l i Hin))
      end.
      rewrite length_app, Hlen. simpl.
      rewrite lookup_app_r by (rewrite Hlen; lia). rewrite Hlen.
      replace (Z.to_nat (Z.of_nat (Z.to_nat (_history_index (w_self w) + 1) + 1) - 1)
               - Z.to_nat (_history_index (w_self w) + 1)) with 0 by lia.
      done. }
    split_and!; try done.
    + intros [= ?]. done.
    + intros _. split; [done|]. rewrite length_app, Hlen. simpl. lia.
    + intros Hnr. split_and!; simpl.
      * rewrite length_app, Hlen. simpl. lia.
      * lia.
      * apply elem_of_app. right. by apply list_elem_of_singleton.
      * apply no_repeat_snoc; [by apply no_repeat_take|].
        replace (Z.to_nat (_history_index (w_self w) + 1))
          with (S (Z.to_nat (_history_index (w_self w)))) by lia.
        rewrite (last_take_S _ _ h Hh). congruence.
  - apply dec_stable in Heq. subst h. split_and!; try done.
    + unfold in_sync. simpl. by rewrite Hpy.
    + intros Hnr. split_and!; simpl; [lia|lia| |done].
      by eapply list_elem_of_lookup_2.
Qed.

(** ** No handler raises *)

Lemma returns_ret {A} (a : A) : returns (ret a).
Proof. intros w. by eexists. Qed.

Lemma returns_gets {A} (f : World → A) : returns (gets f).
Proof. intros w. by eexists. Qed.

Lemma returns_modify (f : World → World) : returns (modify f).
Proof. intros w. by eexists. Qed.

Lemma returns_bind {A B} (m : M A) (k : A → M B) :
  returns m → (∀ a, returns (k a)) → returns (bind m k).
Proof.
  intros Hm Hk w. unfold bind. destruct (Hm w) as [a Ha].
  destruct (m w) as [w' [a'|e]]; simpl in *; [apply Hk|done].
Qed.

Lemma returns_try_except {A} (m : M A) (h : string → M A) :
  (∀ e, returns (h e)) → returns (try_except m h).
Proof.
  intros Hh w. unfold try_except.
  destruct (m w) as [w' [a|e]]; simpl; [by eexists|apply Hh].
Qed.

Lemma returns_for_loop {A S} (xs : list A) (body : S → A → M S) :
  (∀ s x, returns (body s x)) → ∀ s, returns (for_loop xs body s).
Proof.
  intros Hbody. induction xs as [|x xs IH]; intros s; simpl.
  - apply returns_ret.
  - apply returns_bind; [apply Hbody|apply IH].
Qed.

Ltac returns_step :=
  first
    [ apply returns_ret | apply returns_gets | apply returns_modify
    | progress (cbv zeta)
    | apply returns_try_except; intros ?
    | apply returns_for_loop; intros ? ?
    | apply returns_bind; [|intros ?]
    | match goal with
      | |- returns (if ?b then _ else _) => destruct b
      | |- returns (match ?x with _ => _ end) => destruct x
      end ].

Ltac returns_all :=
  unfold warning, information, setStatus, refresh, self, set_attrs,
    exists_, isdir;
  repeat returns_step.

Lemma on_copy_returns : returns on_copy.
Proof.
  unfold on_copy, selected_paths, _place_paths_in_system_clipboard. returns_all.
Qed.

Lemma settle_clipboard_returns (paths : list path) (cut : bool) (t : tally) :
  returns (settle_clipboard paths cut t).
Proof. unfold settle_clipboard. destruct t. returns_all. Qed.

Lemma on_paste_returns : returns on_paste.
Proof.
  unfold on_paste, paste_from_system, paste_from_internal. returns_all.
  all: try apply settle_clipboard_returns.
Qed.

Lemma on_delete_returns (answer : StandardButton) : returns (on_delete answer).
Proof. unfold on_delete, selected_paths, delete_entry. returns_all. Qed.

(** ** What each handler leaves alone *)

Lemma navigation_kept_refl (w : World) : navigation_kept w w.
Proof. done. Qed.

Lemma navigation_kept_trans (w1 w2 w3 : World) :
  navigation_kept w1 w2 → navigation_kept w2 w3 → navigation_kept w1 w3.
Proof. unfold navigation_kept. intuition congruence. Qed.

Ltac navigation_side := unfold navigation_kept; simpl; done.
Ltac keeps_navigation :=
  preserves_with navigation_kept_refl navigation_kept_trans navigation_side.

Lemma navigation_kept_cut_item (src dest base : path) (t : tally) :
  preserves navigation_kept (cut_item src dest base t).
Proof. unfold cut_item. destruct t. keeps_navigation. Qed.

Lemma navigation_kept_settle (paths : list path) (cut : bool) (t : tally) :
  preserves navigation_kept (settle_clipboard paths cut t).
Proof. unfold settle_clipboard. destruct t. keeps_navigation. Qed.

Lemma navigation_kept_on_paste : preserves navigation_kept on_paste.
Proof.
  unfold on_paste, paste_from_system, paste_from_internal. keeps_navigation;
    first [apply navigation_kept_cut_item|apply navigation_kept_settle].
Qed.

Lemma navigation_kept_on_copy : preserves navigation_kept on_copy.
Proof.
  unfold on_copy, selected_paths, _place_paths_in_system_clipboard.
  keeps_navigation.
Qed.

Lemma navigation_kept_on_delete (answer : StandardButton) :
  preserves navigation_kept (on_delete answer).
Proof. unfold on_delete, selected_paths, delete_entry. keeps_navigation. Qed.

Lemma entry_kept_refl (w : World) : entry_kept w w.
Proof. done. Qed.

Lemma entry_kept_trans (w1 w2 w3 : World) :
  entry_kept w1 w2 → entry_kept w2 w3 → entry_kept w1 w3.
Proof. unfold entry_kept. intuition congruence. Qed.

Ltac entry_side := unfold entry_kept; simpl; done.
Ltac keeps_entry := preserves_with entry_kept_refl entry_kept_trans entry_side.

Lemma entry_kept_go_to_path (p : path) : preserves entry_kept (go_to_path p).
Proof. unfold go_to_path. keeps_entry. Qed.

Lemma entry_kept_on_delete (answer : StandardButton) :
  preserves entry_kept (on_delete answer).
Proof. unfold on_delete, selected_paths, delete_entry. keeps_entry. Qed.

Lemma fs_kept_refl (w : World) : fs_kept w w.
Proof. done. Qed.

Lemma fs_kept_trans (w1 w2 w3 : World) :
  fs_kept w1 w2 → fs_kept w2 w3 → fs_kept w1 w3.
Proof. unfold fs_kept. congruence. Qed.

Ltac fs_side := unfold fs_kept; simpl; done.
Ltac keeps_fs := preserves_with fs_kept_refl fs_kept_trans fs_side.

Lemma fs_kept_go_to_path (p : path) : preserves fs_kept (go_to_path p).
Proof. unfold go_to_path. keeps_fs. Qed.

Lemma fs_kept_on_copy : preserves fs_kept on_copy.
Proof.
  unfold on_copy, selected_paths, _place_paths_in_system_clipboard. keeps_fs.
Qed.

Lemma clipboard_kept_refl (w : World) : clipboard_kept w w.
Proof. done. Qed.

Lemma clipboard_kept_trans (w1 w2 w3 : World) :
  clipboard_kept w1 w2 → clipboard_kept w2 w3 → clipboard_kept w1 w3.
Proof. unfold clipboard_kept. congruence. Qed.

Ltac clipboard_side := unfold clipboard_kept; simpl; done.
Ltac keeps_clipboard :=
  preserves_with clipboard_kept_refl clipboard_kept_trans clipboard_side.

Lemma clipboard_kept_go_to_path (p : path) :
  preserves clipboard_kept (go_to_path p).
Proof. unfold go_to_path. keeps_clipboard. Qed.

Lemma clipboard_kept_cut_item (src dest base : path) (t : tally) :
  preserves clipboard_kept (cut_item src dest base t).
Proof. unfold cut_item. destruct t. keeps_clipboard. Qed.

Lemma clipboard_kept_settle (paths : list path) (cut : bool) (t : tally) :
  preserves clipboard_kept (settle_clipboard paths cut t).
Proof. unfold settle_clipboard. destruct t. keeps_clipboard. Qed.

Lemma clipboard_kept_on_paste : preserves clipboard_kept on_paste.
Proof.
  unfold on_paste, paste_from_system, paste_from_internal. keeps_clipboard;
    first [apply clipboard_kept_cut_item|apply clipboard_kept_settle].
Qed.

Lemma clipboard_kept_on_delete (answer : StandardButton) :
  preserves clipboard_kept (on_delete answer).
Proof. unfold on_delete, selected_paths, delete_entry. keeps_clipboard. Qed.

(** ** The history stays well-formed *)

Lemma go_to_path_history_ok (p : path) (w : World) :
  history_ok (w_self w) →
  history_ok (w_self (fst (go_to_path p w))) ∧ snd (go_to_path p w) = Ok tt.
Proof.
  intros (Hidx & Hin & Hnr).
  destruct (fs_exists (w_fs w) p) eqn:Hex.
  2: { destruct (go_to_path_invalid p w (or_introl Hex)) as (? & ? & ->).
       split; [exact (conj Hidx (conj Hin Hnr))|done]. }
  destruct (index_isValid (w_fs w) p) eqn:Hvalid.
  2: { destruct (go_to_path_invalid p w (or_intror Hvalid)) as (? & ? & ->).
       split; [exact (conj Hidx (conj Hin Hnr))|done]. }
  pose proof (go_to_path_valid p w Hidx Hex Hvalid) as H. cbv zeta in H.
  destruct H as (Hret & _ & _ & _ & _ & _ & _ & _ & Hok).
  split; [by apply Hok|done].
Qed.

Lemma on_back_outcome (w : World) :
  let s := w_self w in
  let stepped :=
    set_self (navigate (_current_path s) (_history s) (_history_index s - 1) s) w in
  on_back w =
  if (0 <? _history_index s)%Z then
    match py_index (_history s) (_history_index s - 1) with
    | Some h => go_to_path h stepped
    | None => (stepped, Raise "list index out of range")
    end
  else (w, Ok tt).
Proof.
  unfold on_back, bind, self, set_attrs, modify, gets, raise, ret. simpl.
  destruct (0 <? _ )%Z; [|done]. by destruct (py_index _ _).
Qed.

Lemma on_back_history_ok (w : World) :
  history_ok (w_self w) →
  history_ok (w_self (fst (on_back w))) ∧ snd (on_back w) = Ok tt.
Proof.
  intros (Hidx & Hin & Hnr). rewrite on_back_outcome. cbv zeta.
  destruct (Z.ltb_spec 0 (_history_index (w_self w))) as [Hpos|Hzero].
  2: { split; [exact (conj Hidx (conj Hin Hnr))|done]. }
  destruct (py_index_in_range (_history (w_self w))
              (_history_index (w_self w) - 1) ltac:(lia)) as [Hpy [h Hh]].
  rewrite Hpy, Hh. apply go_to_path_history_ok. simpl.
  split_and!; simpl; try done; lia.
Qed.

Lemma handle_history_ok (ev : Event) (w : World) :
  history_ok (w_self w) →
  history_ok (w_self (after ev w)) ∧ ∃ a, snd (handle ev w) = Ok a.
Proof.
  intros Hok.
  assert (∀ m : M unit, preserves navigation_kept m → returns m →
          history_ok (w_self (fst (m w))) ∧ ∃ a, snd (m w) = Ok a) as Hkept.
  { intros m Hm Hr. split; [|apply Hr].
    destruct (Hm w) as (H1 & H2 & H3). unfold history_ok.
    by rewrite H1, H2, H3. }
  assert (∀ p w0, history_ok (w_self w0) →
          history_ok (w_self (fst (go_to_path p w0))) ∧
          ∃ a, snd (go_to_path p w0) = Ok a) as Hgo.
  { intros p w0 H0. destruct (go_to_path_history_ok p w0 H0). eauto. }
  unfold after. destruct ev; simpl.
  - apply Hkept; [apply navigation_kept_on_copy|apply on_copy_returns].
  - apply Hkept; [apply navigation_kept_on_paste|apply on_paste_returns].
  - apply Hkept; [apply navigation_kept_on_delete|apply on_delete_returns].
  - destruct (on_back_history_ok w Hok). split; [done|by eexists].
  - unfold on_up, bind, self, gets. simpl.
    destruct (path_parent _); [by apply Hgo|]. split; [done|by eexists].
  - unfold on_address_enter. destruct (String.eqb _ _); [|by apply Hgo].
    split; [done|by eexists].
  - by apply Hgo.
  - unfold on_item_double_clicked, bind, isdir, gets. simpl.
    destruct (fs_isdir _ _); [by apply Hgo|]. split; [done|by eexists].
  - split; [done|by eexists].
  - destruct k; simpl.
    + split; [done|by eexists].
    + apply Hkept; [apply navigation_kept_on_copy|apply on_copy_returns].
    + apply Hkept; [apply navigation_kept_on_paste|apply on_paste_returns].
    + split; [done|by eexists].
  - split; [done|by eexists].
  - split; [done|by eexists].
  - split; [done|by eexists].
Qed.

(** X1. In every state the session can reach, the history index points
    into the history, the directory shown is one of the history's entries
    and the history has no directory twice in a row. *)
Theorem history_always_well_formed (w : World) :
  reachable w →
  (0 ≤ _history_index (w_self w) < Z.of_nat (length (_history (w_self w))))%Z ∧
  _current_path (w_self w) ∈ _history (w_self w) ∧
  no_repeat (_history (w_self w)).
Proof.
  induction 1 as [fs md|ev w Hw IH].
  - simpl. split_and!; [lia|lia|by apply list_elem_of_singleton|done].
  - by apply (handle_history_ok ev w).
Qed.

Lemma reachable_history_ok (w : World) : reachable w → history_ok (w_self w).
Proof.
  induction 1 as [fs md|ev w Hw IH].
  - simpl. split_and!; [simpl; lia|simpl; lia|by apply list_elem_of_singleton|done].
  - by apply (handle_history_ok ev w).
Qed.

(** X2. In every state the session can reach, every handler returns: no
    button, key or navigation event ends in an exception, whatever the
    filesystem primitives do. *)
Theorem handlers_never_raise (w : World) (ev : Event) :
  reachable w → snd (handle ev w) = Ok tt.
Proof.
  intros Hw. destruct (handle_history_ok ev w (reachable_history_ok w Hw))
    as [_ [[] H]]. exact H.
Qed.

(** X3. [go_to_path] on a path that does not exist, or for which the
    model has no valid index, shows one warning and changes nothing else:
    the directory shown, the history and its index, the staged entry, the
    filesystem and the system clipboard are what they were, and the
    handler returns. *)
Theorem go_to_path_refused (p : path) (w : World) :
  fs_exists (w_fs w) p = false ∨ index_isValid (w_fs w) p = false →
  ∃ title text,
    go_to_path p w = (show (MsgWarning title text) w, Ok tt) ∧
    w_self (fst (go_to_path p w)) = w_self w ∧
    w_fs (fst (go_to_path p w)) = w_fs w ∧
    w_clipboard (fst (go_to_path p w)) = w_clipboard w.
Proof.
  intros Hbad. destruct (go_to_path_invalid p w Hbad) as (title & text & E).
  exists title, text. rewrite E. by split_and!.
Qed.

(** X4. [go_to_path] on a path that exists and has a valid index, in any
    state the session can reach: the handler returns, the directory shown
    becomes the absolute path, and the staged entry and the filesystem
    are kept.  When the history entry under the index is already that
    directory, history and index stay; otherwise the entries after the
    index are dropped, the directory is appended and the index moves one
    up.  Either way the index then points at the directory shown. *)
Theorem go_to_path_visits (p : path) (w : World) :
  reachable w →
  fs_exists (w_fs w) p = true →
  index_isValid (w_fs w) p = true →
  let s := w_self w in
  let s' := w_self (fst (go_to_path p w)) in
  snd (go_to_path p w) = Ok tt ∧
  w_fs (fst (go_to_path p w)) = w_fs w ∧
  _current_path s' = abspath p ∧
  _clipboard_paths s' = _clipboard_paths s ∧
  _clipboard_is_cut s' = _clipboard_is_cut s ∧
  (py_index (_history s) (_history_index s) = Some (abspath p) →
     _history s' = _history s ∧ _history_index s' = _history_index s) ∧
  (py_index (_history s) (_history_index s) ≠ Some (abspath p) →
     _history s' =
       take (Z.to_nat (_history_index s + 1)) (_history s) ++ [abspath p] ∧
     _history_index s' = (_history_index s + 1)%Z) ∧
  in_sync s'.
Proof.
  intros Hw Hex Hvalid s s'.
  destruct (reachable_history_ok w Hw) as (Hidx & _ & _).
  pose proof (go_to_path_valid p w Hidx Hex Hvalid) as H. cbv zeta in H.
  destruct H as (H1 & H2 & H3 & H4 & H5 & H6 & H7 & H8 & _).
  by split_and!.
Qed.

(** X5. Back, when the previous directory of the history no longer
    exists: the warning "Path not found" is shown and the directory shown
    stays, but the history index has already moved one down; the history
    itself and the filesystem are unchanged. *)
Theorem on_back_to_vanished (w : World) (h : path) :
  (0 < _history_index (w_self w))%Z →
  py_index (_history (w_self w)) (_history_index (w_self w) - 1) = Some h →
  fs_exists (w_fs w) h = false →
  let w' := fst (on_back w) in
  snd (on_back w) = Ok tt ∧
  w_ui w' = w_ui w ++
    [MsgWarning "Path not found" ("The path does not exist:" +:+ pystr.nl +:+ h)] ∧
  _current_path (w_self w') = _current_path (w_self w) ∧
  _history (w_self w') = _history (w_self w) ∧
  _history_index (w_self w') = (_history_index (w_self w) - 1)%Z ∧
  w_fs w' = w_fs w.
Proof.
  intros Hpos Hh Hgone. rewrite on_back_outcome. cbv zeta.
  destruct (Z.ltb_spec 0 (_history_index (w_self w))); [|lia].
  rewrite Hh, go_to_path_outcome. cbv zeta. simpl. by rewrite Hgone.
Qed.

(** X6. Visiting a new directory and going back returns to where one was:
    from a session whose index points at the directory shown, that
    directory being still there and equal to its absolute path, a
    successful [go_to_path] to another directory followed by [on_back]
    shows the first directory again, with the index where it was and the
    visited directory kept as the one forward entry of the history. *)
Theorem visit_then_back (p : path) (w : World) :
  let s := w_self w in
  let current := _current_path s in
  (0 ≤ _history_index s < Z.of_nat (length (_history s)))%Z →
  in_sync s →
  fs_exists (w_fs w) p = true → index_isValid (w_fs w) p = true →
  abspath p ≠ current →
  fs_exists (w_fs w) current = true → index_isValid (w_fs w) current = true →
  abspath current = current →
  let w2 := fst (on_back (fst (go_to_path p w))) in
  snd (on_back (fst (go_to_path p w))) = Ok tt ∧
  _current_path (w_self w2) = current ∧
  _history_index (w_self w2) = _history_index s ∧
  _history (w_self w2) =
    take (Z.to_nat (_history_index s + 1)) (_history s) ++ [abspath p] ∧
  in_sync (w_self w2).
Proof.
  intros s current Hidx Hsync Hex Hvalid Hne Hcur_ex Hcur_valid Hcur_abs.
  subst s current. unfold in_sync in Hsync.
  pose proof (go_to_path_valid p w Hidx Hex Hvalid) as H1. cbv zeta in H1.
  destruct H1 as (_ & Hfs1 & Hcur1 & _ & _ & _ & Hnew & _ & _).
  destruct Hnew as [Hhist1 Hidx1]; [rewrite Hsync; congruence|].
  set (w1 := fst (go_to_path p w)) in *.
  destruct (py_index_in_range _ _ Hidx) as [Hpy _].
  rewrite Hpy in Hsync.
  assert (py_index (_history (w_self w1)) (_history_index (w_self w1) - 1)
          = Some (_current_path (w_self w))) as Hprev.
  { rewrite Hhist1, Hidx1.
    replace (_history_index (w_self w) + 1 - 1)%Z
      with (_history_index (w_self w)) by lia.
    match goal with
    | |- py_index ?l ?i = _ =>
        assert (0 ≤ i < Z.of_nat (length l))%Z as Hin
          by (rewrite length_app, length_take; simpl; lia);
        rewrite (proj1 (py_index_in_range l i Hin))
    end.
    rewrite lookup_app_l by (rewrite length_take; lia).
    rewrite lookup_take_lt by lia. done. }
  rewrite on_back_outcome. cbv zeta.
  destruct (Z.ltb_spec 0 (_history_index (w_self w1))); [|lia].
  rewrite Hprev.
  set (stepped := set_self _ w1).
  assert (0 ≤ _history_index (w_self stepped)
          < Z.of_nat (length (_history (w_self stepped))))%Z as Hidx2.
  { subst stepped. simpl. rewrite Hhist1, Hidx1, length_app, length_take.
    simpl. lia. }
  assert (w_fs stepped = w_fs w) as Hfs2 by (subst stepped; simpl; done).
  pose proof (go_to_path_valid (_current_path (w_self w)) stepped Hidx2
                ltac:(by rewrite Hfs2) ltac:(by rewrite Hfs2)) as H2.
  cbv zeta in H2.
  destruct H2 as (Hret & _ & Hcur2 & _ & _ & Hsame & _ & Hsync2 & _).
  destruct Hsame as [Hhist2 Hidx2'].
  { subst stepped. simpl. rewrite Hcur_abs.
    replace (_history_index (w_self w1) - 1)%Z
      with (_history_index (w_self w1) - 1)%Z by lia. exact Hprev. }
  split_and!; try done.
  - by rewrite Hcur2.
  - rewrite Hidx2'. subst stepped. simpl. lia.
  - rewrite Hhist2. subst stepped. simpl. done.
Qed.

(** ** Copy *)

Lemma local_files_of_paths (paths : list path) :
  local_files {| md_urls := Some (LocalFile <$> paths) |} = paths.
Proof.
  unfold local_files, urls. simpl.
  induction paths as [|p paths IH]; [done|].
  rewrite fmap_cons, filter_cons_True by done.
  rewrite fmap_cons. simpl. f_equal. exact IH.
Qed.

Lemma on_copy_outcome (w : World) :
  let paths := selected_paths_of filePath (w_selection w) in
  on_copy w =
  match paths with
  | [] => (show (MsgInformation "No selection" "Select files/folders to copy.") w,
           Ok tt)
  | _ :: _ =>
      (show (StatusText ("Copied " +:+ pretty (length paths) +:+ " items"))
         (show (StatusText "Placed items in clipboard (copy)")
            (set_clipboard (Some {| md_urls := Some (LocalFile <$> paths) |})
               (set_self (stage paths false (w_self w)) w))),
       Ok tt)
  end.
Proof.
  unfold on_copy, selected_paths, _place_paths_in_system_clipboard.
  unfold_m. simpl. by destruct (selected_paths_of _ _).
Qed.

(** X7. Copy stages the deduplicated selection under the copy flag and
    writes the same paths, as file URLs, to the system clipboard, from
    which a paste reads exactly these paths back; the filesystem and the
    navigation state are untouched.  With nothing selected, copy only
    says so: the staged entry and the system clipboard stay. *)
Theorem on_copy_stages_selection (w : World) :
  let paths := selected_paths_of filePath (w_selection w) in
  let w' := fst (on_copy w) in
  (paths = [] →
     on_copy w =
     (show (MsgInformation "No selection" "Select files/folders to copy.") w,
      Ok tt)) ∧
  (paths ≠ [] →
     snd (on_copy w) = Ok tt ∧
     _clipboard_paths (w_self w') = paths ∧
     _clipboard_is_cut (w_self w') = false ∧
     NoDup (_clipboard_paths (w_self w')) ∧
     (∃ md, w_clipboard w' = Some md ∧ hasUrls md = true ∧
            urls md = LocalFile <$> paths ∧ local_files md = paths) ∧
     w_fs w' = w_fs w ∧
     navigation_kept w w').
Proof.
  intros paths w'. subst w'. rewrite on_copy_outcome. cbv zeta. fold paths.
  split; [by intros ->|]. intros Hne.
  assert (NoDup paths) as Hnd.
  { subst paths. rewrite selected_paths_of_first_seen. apply NoDup_first_seen. }
  clearbody paths. destruct paths as [|p0 l]; [done|].
  split_and!; try done.
  exists {| md_urls := Some (LocalFile <$> p0 :: l) |}.
  split; [done|]. split; [done|]. split; [done|].
  apply local_files_of_paths.
Qed.

(** X8. A paste that follows a copy takes the system clipboard: with a
    valid destination, the paste after a copy of a non-empty selection is
    the loop over the copied paths, from the system clipboard, reported as
    "Pasted N item(s) from system clipboard" with N the number of copied
    paths; the staged entry is still the copied selection afterwards. *)
Theorem copy_then_paste_uses_system_clipboard `{!PlatformLaws P} (w : World) :
  let paths := selected_paths_of filePath (w_selection w) in
  let dest_dir := _current_path (w_self w) in
  let w1 := fst (on_copy w) in
  paths ≠ [] →
  fs_isdir (w_fs w) dest_dir = true →
  on_paste w1 =
    (show (SetRoot dest_dir)
       (show (StatusText ("Pasted " +:+ pretty (length paths) +:+
                          " item(s) from system clipboard"))
          (foldl (λ w0 src, fst (paste_system_entry dest_dir src w0)) w1 paths)),
     Ok tt) ∧
  _clipboard_paths (w_self (fst (on_paste w1))) = paths ∧
  _clipboard_is_cut (w_self (fst (on_paste w1))) = false.
Proof.
  intros paths dest_dir w1 Hne Hdir. subst w1.
  pose proof (on_copy_outcome w) as Hcopy. cbv zeta in Hcopy. fold paths in Hcopy.
  clearbody paths. destruct paths as [|p0 l]; [done|].
  set (paths := p0 :: l) in *.
  rewrite Hcopy. simpl fst.
  set (w1 := show _ (show _ (set_clipboard _ (set_self _ w)))).
  pose proof (on_paste_from_system w1
                {| md_urls := Some (fmap (M:=list) LocalFile paths) |}
                Hdir eq_refl eq_refl)
    as Hpaste.
  cbv zeta in Hpaste. rewrite local_files_of_paths in Hpaste.
  change (_current_path (w_self w1)) with dest_dir in Hpaste.
  split; [exact Hpaste|].
  destruct (system_loop_effect dest_dir paths w1) as [Hs _].
  assert (w_self (fst (on_paste w1)) = w_self w1) as ->
    by (rewrite Hpaste; exact Hs).
  by subst w1.
Qed.

(** ** The tally of an internal paste *)

Lemma paste_internal_entry_tally (dest_dir src : path) (cut : bool)
    (n : nat) (f : list (path * string)) (w w' : World) (t' : tally) :
  paste_internal_entry dest_dir cut (n, f) src w = (w', Ok t') →
  t' = (n, f) ∨ t' = (S n, f) ∨ ∃ e, t' = (n, f ++ [(src, e)]).
Proof.
  destruct (fs_exists (w_fs w) src) eqn:Hsrc.
  2: { rewrite paste_internal_entry_vanished by done. intros [= _ <-]. eauto. }
  destruct (decide (abspath src = abspath dest_dir)) as [Habs|Habs].
  { rewrite paste_internal_entry_self by done. intros [= _ <-]. eauto. }
  rewrite paste_internal_entry_transfer by done.
  unfold try_except, bind at 1.
  assert (∃ dest, resolve_conflict dest_dir (os_path.basename src)
                    (os_path.join dest_dir (os_path.basename src)) w
                  = (w, Ok dest)) as [dest ->].
  { destruct (fs_exists (w_fs w)
                (os_path.join dest_dir (os_path.basename src))) eqn:Hd.
    - rewrite resolve_conflict_taken by done. by eexists.
    - rewrite resolve_conflict_free by done. by eexists. }
  destruct cut.
  - rewrite cut_item_unfold. cbv zeta.
    destruct (snd (shutil_move _ _ _)); [intros [= _ <-]; eauto|].
    destruct (snd (if fs_isdir _ _ then _ else _)); [|intros [= _ <-]; eauto].
    destruct (snd (if fs_isdir _ _ then _ else _)); intros [= _ <-]; eauto.
  - unfold copy_item. unfold_m. simpl.
    destruct (fs_isdir (w_fs w) src); simpl.
    + destruct (shutil_copytree _ _ _) as [fs' [[]|e]]; simpl;
        intros [= _ <-]; eauto.
    + destruct (shutil_copy2 _ _ _) as [fs' [[]|e]]; simpl;
        intros [= _ <-]; eauto.
Qed.

Lemma internal_loop_tally (dest_dir : path) (cut : bool) (xs : list path) :
  ∀ n f w w' n' f',
    for_loop xs (paste_internal_entry dest_dir cut) (n, f) w = (w', Ok (n', f')) →
    ∃ f1, f' = f ++ f1 ∧ f1.*1 `sublist_of` xs ∧
          n ≤ n' ∧ (n' - n) + length f1 ≤ length xs.
Proof.
  induction xs as [|x xs IH]; intros n f w w' n' f' Hloop.
  - simpl in Hloop. unfold ret in Hloop. injection Hloop as _ <- <-.
    exists []. rewrite app_nil_r. split_and!; [done|done|lia|simpl; lia].
  - destruct (paste_internal_entry_returns dest_dir x cut (n, f) w)
      as (w1 & [n1 f1] & Hx).
    rewrite (for_loop_cons x xs _ _ _ w w1 Hx) in Hloop.
    destruct (IH _ _ _ _ _ _ Hloop) as (f2 & -> & Hsub & Hle & Hcount).
    destruct (paste_internal_entry_tally _ _ _ _ _ _ _ _ Hx)
      as [[= -> ->]|[[= -> ->]|[e [= -> ->]]]].
    + exists f2. split_and!; [done| |lia|simpl; lia].
      by apply sublist_cons.
    + exists f2. split_and!; [done| |lia|simpl; lia].
      by apply sublist_cons.
    + exists ((x, e) :: f2). rewrite <- app_assoc. split_and!; [done| |lia|simpl; lia].
      simpl. by apply sublist_skip.
Qed.

(** X9. The tally of the loop over the internal clipboard, in either
    mode: every entry is counted at most once, as pasted or as failed and
    never as both, so the two counts add up to no more than the number of
    staged paths; the failed list names staged paths only, in the order of
    the clipboard. *)
Theorem internal_paste_tally (dest_dir : path) (cut : bool)
    (paths : list path) (w w' : World) (pasted_count : nat)
    (failed_paths : list (path * string)) :
  for_loop paths (paste_internal_entry dest_dir cut) (0, []) w =
    (w', Ok (pasted_count, failed_paths)) →
  pasted_count + length failed_paths ≤ length paths ∧
  failed_paths.*1 `sublist_of` paths.
Proof.
  intros Hloop.
  destruct (internal_loop_tally _ _ _ _ _ _ _ _ _ Hloop)
    as (f1 & -> & Hsub & _ & Hcount).
  simpl. split; [lia|done].
Qed.

(** ** What changes what *)

Lemma on_delete_declined (w : World) :
  w_fs (fst (on_delete No w)) = w_fs w ∧
  w_self (fst (on_delete No w)) = w_self w.
Proof.
  unfold on_delete, selected_paths. unfold_m. simpl.
  by destruct (selected_paths_of _ _).
Qed.

Lemma fs_kept_on_back : preserves fs_kept on_back.
Proof. unfold on_back. keeps_fs; apply fs_kept_go_to_path. Qed.

Lemma entry_kept_on_back : preserves entry_kept on_back.
Proof. unfold on_back. keeps_entry; apply entry_kept_go_to_path. Qed.

Lemma clipboard_kept_on_back : preserves clipboard_kept on_back.
Proof. unfold on_back. keeps_clipboard; apply clipboard_kept_go_to_path. Qed.

(** With the cut flag down a paste writes no attribute of the session. *)
Lemma on_paste_session_kept (w : World) :
  flag_down w → session_kept w (fst (on_paste w)).
Proof.
  intros Hflag.
  destruct (fs_isdir (w_fs w) (_current_path (w_self w))) eqn:Hdir.
  2: { by rewrite on_paste_not_a_directory. }
  destruct (system_clipboard_files (w_clipboard w)) as [md|] eqn:Hmd.
  - assert (on_paste w = paste_from_system (_current_path (w_self w)) md w) as ->.
    { unfold on_paste, bind, self, isdir, gets. simpl.
      rewrite Hdir. simpl. by rewrite Hmd. }
    generalize (_current_path (w_self w)). intros dest_dir.
    clear Hflag Hdir Hmd. revert w.
    change (preserves session_kept (paste_from_system dest_dir md)).
    unfold paste_from_system. keeps_session.
  - rewrite on_paste_from_internal by done.
    unfold paste_from_internal, bind at 1, self at 1, gets at 1.
    rewrite Hflag. clear Hflag Hdir Hmd.
    generalize (_current_path (w_self w)) (_clipboard_paths (w_self w)).
    intros dest_dir paths. revert w.
    match goal with
    | |- ∀ w, session_kept w (fst (?m w)) => change (preserves session_kept m)
    end.
    unfold settle_clipboard. keeps_session.
Qed.

Lemma entry_kept_unless_copy (w : World) (ev : Event) :
  flag_down w → is_copy ev = false → entry_kept w (after ev w).
Proof.
  intros Hflag Hev. unfold after.
  assert (∀ p w0, entry_kept w0 (fst (go_to_path p w0))) as Hgo
    by (intros p w0; apply entry_kept_go_to_path).
  destruct ev; simpl; try done.
  - pose proof (on_paste_session_kept w Hflag) as H.
    unfold session_kept in H. unfold entry_kept. by rewrite H.
  - apply entry_kept_on_delete.
  - apply entry_kept_on_back.
  - unfold on_up, bind, self, gets. simpl. by destruct (path_parent _).
  - unfold on_address_enter. by destruct (String.eqb _ _).
  - apply Hgo.
  - unfold on_item_double_clicked, bind, isdir, gets. simpl.
    by destruct (fs_isdir _ _).
  - destruct k; simpl; try done.
    pose proof (on_paste_session_kept w Hflag) as H.
    unfold session_kept in H. unfold entry_kept. by rewrite H.
Qed.


(** X10. In every state the session can reach, nothing but a confirmed
    delete (or another program) removes a path: after any other event every
    path that existed still exists, and unless the event is a paste the
    filesystem is exactly what it was. *)
Theorem only_confirmed_delete_removes `{!PlatformLaws P} (w : World) (ev : Event) :
  reachable w →
  ev ≠ DeleteClicked Yes →
  (∀ fs, ev ≠ FilesystemChanged fs) →
  nothing_removed w (after ev w) ∧
  (is_paste ev = false → w_fs (after ev w) = w_fs w).
Proof.
  intros Hw Hdel Hfs.
  pose proof (reachable_flag_down w Hw) as Hflag.
  assert (is_paste ev = false → w_fs (after ev w) = w_fs w) as Hkept.
  { unfold after.
    assert (∀ p w0, w_fs (fst (go_to_path p w0)) = w_fs w0) as Hgo
      by (intros p w0; apply fs_kept_go_to_path).
    destruct ev; simpl; try done.
    - intros _. apply fs_kept_on_copy.
    - intros _. destruct answer; [done|]. apply on_delete_declined.
    - intros _. apply fs_kept_on_back.
    - intros _. unfold on_up, bind, self, gets. simpl.
      by destruct (path_parent _).
    - intros _. unfold on_address_enter. by destruct (String.eqb _ _).
    - intros _. apply Hgo.
    - intros _. unfold on_item_double_clicked, bind, isdir, gets. simpl.
      by destruct (fs_isdir _ _).
    - destruct k; simpl; try done. intros _. apply fs_kept_on_copy.
    - by destruct (Hfs fs). }
  split; [|done].
  destruct (is_paste ev) eqn:Hp.
  - assert (after ev w = fst (on_paste w)) as ->
      by (unfold after; destruct ev as [| | | | | | | | |[]| | |]; done).
    by apply on_paste_only_adds.
  - intros p Hp'. by rewrite Hkept.
Qed.

(** X11. In every state the session can reach, only a copy changes the
    staged entry: after any other event, a paste included, the staged
    paths and the cut flag are what they were. *)
Theorem staged_entry_changes_only_by_copy (w : World) (ev : Event) :
  reachable w →
  is_copy ev = false →
  _clipboard_paths (w_self (after ev w)) = _clipboard_paths (w_self w) ∧
  _clipboard_is_cut (w_self (after ev w)) = _clipboard_is_cut (w_self w).
Proof.
  intros Hw Hev. apply entry_kept_unless_copy; [|done].
  by apply reachable_flag_down.
Qed.

(** X12. In every state the session can reach, the staged entry holds no
    path twice. *)
Theorem staged_entry_has_no_duplicates (w : World) :
  reachable w → NoDup (_clipboard_paths (w_self w)).
Proof.
  induction 1 as [fs md|ev w Hw IH]; [apply NoDup_nil_2|].
  destruct (is_copy ev) eqn:Hev.
  - assert (after ev w = fst (on_copy w)) as ->
      by (unfold after; destruct ev as [| | | | | | | | |[]| | |]; done).
    rewrite on_copy_outcome. cbv zeta.
    destruct (selected_paths_of filePath (w_selection w)) as [|p0 l] eqn:E;
      [done|]. simpl. rewrite <- E.
    rewrite selected_paths_of_first_seen. apply NoDup_first_seen.
  - destruct (entry_kept_unless_copy w ev (reachable_flag_down w Hw) Hev)
      as [-> _]. done.
Qed.

(** X13. The system clipboard is written by copy alone: after any event
    that is neither a copy nor a change made by another program, a paste
    or a delete included, it holds what it held. *)
Theorem system_clipboard_written_only_by_copy (w : World) (ev : Event) :
  is_copy ev = false →
  (∀ md, ev ≠ ClipboardChanged md) →
  w_clipboard (after ev w) = w_clipboard w.
Proof.
  intros Hev Hmd. unfold after.
  assert (∀ p w0, w_clipboard (fst (go_to_path p w0)) = w_clipboard w0) as Hgo
    by (intros p w0; apply clipboard_kept_go_to_path).
  destruct ev; simpl; try done.
  - apply clipboard_kept_on_paste.
  - apply clipboard_kept_on_delete.
  - apply clipboard_kept_on_back.
  - unfold on_up, bind, self, gets. simpl. by destruct (path_parent _).
  - unfold on_address_enter. by destruct (String.eqb _ _).
  - apply Hgo.
  - unfold on_item_double_clicked, bind, isdir, gets. simpl.
    by destruct (fs_isdir _ _).
  - destruct k; simpl; try done. apply clipboard_kept_on_paste.
  - by destruct (Hmd md).
Qed.

(** ** Names *)

Lemma string_length_app (a b : string) :
  String.length (a +:+ b) = String.length a + String.length b.
Proof. induction a as [|c a IH]; simpl; [done|by rewrite IH]. Qed.

Lemma take_drop_n (n : nat) (s : string) :
  pystr.take_n n s +:+ pystr.drop_n n s = s.
Proof.
  revert s. induction n as [|n IH]; intros [|a s]; try done.
  change (String a (pystr.take_n n s +:+ pystr.drop_n n s) = String a s).
  f_equal. apply IH.
Qed.

Lemma splitext_app (p : path) :
  fst (os_path.splitext p) +:+ snd (os_path.splitext p) = p.
Proof.
  unfold os_path.splitext.
  assert (∀ s : string, s +:+ "" = s) as Hnil
    by (induction s as [|a s IH]; [done|];
        change (String a (s +:+ "") = String a s); by rewrite IH).
  destruct (_ <? _)%Z; simpl; [|apply Hnil].
  destruct (os_path.has_non_dot _ _ _); simpl; [apply take_drop_n|apply Hnil].
Qed.

Lemma copy_name_length (base : string) :
  String.length (copy_name base) = String.length base + 5.
Proof.
  unfold copy_name. pose proof (splitext_app base) as H.
  destruct (os_path.splitext base) as [b e]. simpl in H.
  rewrite <- H, !string_length_app. simpl. lia.
Qed.

(** The character after the last [c] of [s], if any, is not [c]. *)
Lemma rfind_from_spec (c : ascii) (s : string) :
  ∀ i, (0 ≤ i)%Z →
    let r := pystr.rfind_from c s i in
    (r = (-1)%Z ∨ (i ≤ r)%Z) ∧
    ∀ a s', pystr.drop_n (Z.to_nat (r - i + 1)) s = String a s' → a ≠ c.
Proof.
  induction s as [|a s IH]; intros i Hi; simpl.
  - split; [by left|]. by destruct (Z.to_nat _).
  - destruct (IH (i + 1)%Z ltac:(lia)) as [Hr Hfirst].
    destruct (Z.leb_spec 0 (pystr.rfind_from c s (i + 1))) as [Hpos|Hneg].
    + destruct Hr as [Hr|Hr]; [lia|]. split; [right; lia|].
      intros a' s'.
      replace (Z.to_nat (pystr.rfind_from c s (i + 1) - i + 1))
        with (S (Z.to_nat (pystr.rfind_from c s (i + 1) - (i + 1) + 1))) by lia.
      simpl. apply Hfirst.
    + destruct Hr as [Hr|Hr]; [|lia]. rewrite Hr in Hfirst.
      replace (Z.to_nat (-1 - (i + 1) + 1)) with 0 in Hfirst by lia.
      simpl in Hfirst.
      destruct (Ascii.eqb_spec a c) as [->|Hac].
      * split; [right; lia|]. intros a' s'.
        replace (Z.to_nat (i - i + 1)) with 1 by lia. simpl. apply Hfirst.
      * split; [by left|]. intros a' s'.
        replace (Z.to_nat (-1 - i + 1)) with 0 by lia. simpl.
        by intros [= <- _].
Qed.

Lemma startswith_sep_cons (a : ascii) (s : string) :
  pystr.startswith (String a s) "/" = true → a = os_path.sep.
Proof.
  unfold pystr.startswith. intros H. apply String.prefix_correct in H.
  simpl in H. destruct s; by injection H.
Qed.

Lemma basename_no_leading_sep (p : path) :
  pystr.startswith (os_path.basename p) "/" = false.
Proof.
  unfold os_path.basename, pystr.slice_from, pystr.rfind.
  destruct (rfind_from_spec os_path.sep p 0 ltac:(lia)) as [_ H].
  replace (pystr.rfind_from os_path.sep p 0 - 0 + 1)%Z
    with (pystr.rfind_from os_path.sep p 0 + 1)%Z in H by lia.
  destruct (pystr.drop_n _ p) as [|a s'] eqn:E; [done|].
  specialize (H a s' eq_refl).
  destruct (pystr.startswith (String a s') "/") eqn:Hs; [|done].
  by apply startswith_sep_cons in Hs.
Qed.

Lemma copy_name_no_leading_sep (base : string) :
  pystr.startswith base "/" = false →
  pystr.startswith (copy_name base) "/" = false.
Proof.
  unfold copy_name. pose proof (splitext_app base) as H.
  destruct (os_path.splitext base) as [b e]. simpl in H. subst base.
  destruct b as [|a b]; [intros _; reflexivity|]. intros Hbase.
  change (String a b +:+ "_copy" +:+ e) with (String a (b +:+ "_copy" +:+ e)).
  destruct (pystr.startswith (String a (b +:+ "_copy" +:+ e)) "/") eqn:Hs;
    [|done].
  apply startswith_sep_cons in Hs as ->.
  change (String os_path.sep b +:+ e) with (String os_path.sep (b +:+ e)) in Hbase.
  assert (pystr.startswith (String os_path.sep (b +:+ e)) "/" = true) as Hyes.
  { apply String.prefix_correct. simpl. by destruct (b +:+ e). }
  congruence.
Qed.

Lemma join_length (a b : path) :
  pystr.startswith b "/" = false →
  String.length (os_path.join a b) =
  String.length a + String.length b +
  (if (String.eqb a "" || pystr.endswith_char a os_path.sep)%bool then 0 else 1).
Proof.
  intros Hb. unfold os_path.join. rewrite Hb.
  destruct (_ || _)%bool; rewrite !string_length_app; simpl; lia.
Qed.

(** X14. When the computed destination is taken, the destination the
    entry is transferred to is another path: it is five characters
    longer, the [_copy] put into the base name, so the transfer is never
    aimed at the entry it collides with. *)
Theorem renamed_destination_differs (dest_dir src : path) (w : World) :
  let taken := os_path.join dest_dir (os_path.basename src) in
  fs_exists (w_fs w) taken = true →
  ∃ dest,
    resolve_conflict dest_dir (os_path.basename src) taken w = (w, Ok dest) ∧
    String.length dest = String.length taken + 5 ∧
    dest ≠ taken.
Proof.
  intros taken Htaken. rewrite resolve_conflict_taken by done.
  eexists. split; [done|].
  assert (String.length
            (os_path.join dest_dir (copy_name (os_path.basename src)))
          = String.length taken + 5) as Hlen.
  { unfold taken.
    rewrite !join_length, copy_name_length;
      [lia|apply basename_no_leading_sep
      |apply copy_name_no_leading_sep, basename_no_leading_sep]. }
  split; [done|]. intros E. rewrite E in Hlen. lia.
Qed.

(** The recursion of [lstrip] steps over one, two or three bytes at a
    time: induction on a bound of the length. *)
Lemma lstrip_all_space (n : nat) :
  ∀ s, String.length s ≤ n → pystr.all_space s = true → pystr.lstrip s = "".
Proof.
  induction n as [|n IH]; intros s Hlen H.
  { destruct s; [done|simpl in Hlen; lia]. }
  destruct s as [|a s1]; [done|].
  cbn [pystr.all_space pystr.lstrip] in *. cbn [String.length] in Hlen.
  destruct (pystr.is_space1 a); [apply IH; [lia|done]|].
  destruct s1 as [|b s2]; [done|]. cbn [String.length] in Hlen.
  destruct (pystr.is_space2 a b); [apply IH; [lia|done]|].
  destruct s2 as [|c s3]; [done|]. cbn [String.length] in Hlen.
  destruct (pystr.is_space3 a b c); [apply IH; [lia|done]|done].
Qed.

Lemma strip_all_space (s : string) :
  pystr.all_space s = true → pystr.strip s = "".
Proof.
  intros H. unfold pystr.strip.
  by rewrite (lstrip_all_space (String.length s) s).
Qed.

(** X15. Return pressed on an address bar that is empty or holds only
    white space, that of Unicode included (all that [str.strip] removes),
    does nothing at all. *)
Theorem on_address_enter_blank (text : string) (w : World) :
  pystr.all_space text = true →
  on_address_enter text w = (w, Ok tt).
Proof.
  intros H. unfold on_address_enter. by rewrite strip_all_space.
Qed.

(** X16. Copy, paste and delete never navigate: whatever the state and
    the outcome, the directory shown, the history and its index are what
    they were. *)
Theorem clipboard_handlers_never_navigate (w : World) :
  navigation_kept w (fst (on_copy w)) ∧
  navigation_kept w (fst (on_paste w)) ∧
  ∀ answer, navigation_kept w (fst (on_delete answer w)).
Proof.
  split; [apply navigation_kept_on_copy|].
  split; [apply navigation_kept_on_paste|].
  intros answer. apply navigation_kept_on_delete.
Qed.

End ExplorerFacts.

(** ** The small filesystem keeps the contract *)

Module ToyFacts.
Import ToyFS.

Lemma lookup_without_ne (l : list (path * node)) (p q : path) :
  String.eqb q p = false →
  lookup_node (without l q) p = lookup_node l p.
Proof.
  intros Hne. unfold without. induction l as [|[r n] l IH]; [done|].
  destruct (String.eqb r q) eqn:Hr.
  - rewrite filter_cons_False by (simpl; congruence).
    apply String.eqb_eq in Hr as ->. simpl. by rewrite Hne.
  - rewrite filter_cons_True by done.
    change (lookup_node ((r, n) :: ?t) p)
      with (if String.eqb r p then Some n else lookup_node t p).
    destruct (String.eqb r p); [done|exact IH].
Qed.

Lemma lookup_app_is_Some (l l' : list (path * node)) (p : path) :
  is_Some (lookup_node l p) → is_Some (lookup_node (l ++ l') p).
Proof.
  induction l as [|[r n] l IH]; simpl; [by intros [? ?]|].
  by destruct (String.eqb r p).
Qed.

Lemma exists_node_is_Some (f : fs) (p : path) :
  exists_node f p = true ↔ is_Some (lookup_node (nodes f) p).
Proof.
  unfold exists_node. by destruct (lookup_node _ _); split; try done;
    try (intros [? ?]).
Qed.

Lemma toy_laws : PlatformLaws platform.
Proof.
  split; simpl.
  - intros f p. unfold is_dir, exists_node. by destruct (lookup_node _ _).
  - intros f src dest f' r p. unfold copy2.
    destruct (is_locked f src); [by intros [= <- _]|].
    destruct (lookup_node (nodes f) src) as [[c|]|]; try by intros [= <- _].
    destruct (String.eqb _ src); [by intros [= <- _]|].
    destruct (is_dir f _); [by intros [= <- _]|].
    intros [= <- _]. rewrite !exists_node_is_Some. simpl.
    destruct (String.eqb _ p) eqn:E; [by eexists|].
    by rewrite lookup_without_ne.
  - intros f src dest f' r p. unfold copytree.
    destruct (is_locked f src); [by intros [= <- _]|].
    destruct (lookup_node (nodes f) src) as [[c|]|]; try by intros [= <- _].
    destruct (exists_node f dest); [by intros [= <- _]|].
    destruct (is_under src dest); [by intros [= <- _]|].
    intros [= <- _]. rewrite !exists_node_is_Some. simpl.
    apply lookup_app_is_Some.
Qed.

(** ** The handlers on concrete worlds *)



Lemma cut_flag_never_set_witness :
  reachable pasted_world ∧
  _clipboard_is_cut (w_self pasted_world) = false ∧
  content pasted_world "/home/user/a.txt" = Some (File "A").
Proof.
  assert (reachable pasted_world) as H
    by (unfold pasted_world; repeat apply reachable_after; apply reachable_init).
  split; [exact H|]. split; [|reflexivity].
  exact (proj1 (@cut_flag_never_set platform toy_laws pasted_world H)).
Defined.

Lemma self_paste_rejected_witness :
  fs_isdir (w_fs copy_world) "/dst" = true ∧
  paste_internal_entry "/dst" true (0, []) "/dst" copy_world =
  (show (MsgWarning "Paste Error" "Cannot paste 'dst' into itself.") copy_world,
   Ok (0, [])).
Proof.
  split; [reflexivity|].
  pose proof (@self_paste_rejected platform toy_laws "/dst" copy_world eq_refl)
    as (_ & _ & _ & _ & _ & H & _).
  exact (H true (0, [])).
Defined.

Lemma paste_invalid_target_witness :
  fs_exists (w_fs lost_world) (_current_path (w_self lost_world)) = false ∧
  w_fs (fst (on_paste lost_world)) = w_fs lost_world ∧
  w_self (fst (on_paste lost_world)) = w_self lost_world.
Proof.
  split; [reflexivity|].
  pose proof (@paste_invalid_target_is_noop platform toy_laws lost_world
                (or_introl eq_refl)) as (H1 & H2 & _).
  by split.
Defined.

(** C5, as stated, fails where the system clipboard holds a URL list
    without any local file: the clipboard holds no file reference and
    nothing is staged, yet the paste does not say "Nothing to paste." but
    "Pasted 0 item(s) from system clipboard". *)
Lemma web_link_hides_empty_clipboard :
  w_clipboard link_world =
    Some {| md_urls := Some [OtherUrl "https://example.org/"] |} ∧
  local_files {| md_urls := Some [OtherUrl "https://example.org/"] |} = [] ∧
  _clipboard_paths (w_self link_world) = [] ∧
  fs_isdir (w_fs link_world) (_current_path (w_self link_world)) = true ∧
  w_ui (fst (on_paste link_world)) =
    [StatusText "Pasted 0 item(s) from system clipboard"; SetRoot "/dst"] ∧
  MsgInformation "Clipboard is empty" "Nothing to paste."
    ∉ w_ui (fst (on_paste link_world)).
Proof.
  repeat split; try reflexivity.
  vm_compute. intros H. by repeat (apply elem_of_cons in H as [H|H]; [done|]);
    apply elem_of_nil in H.
Qed.

Lemma paste_source_order_witness :
  fs_isdir (w_fs files_world) (_current_path (w_self files_world)) = true ∧
  w_self (fst (on_paste files_world)) = w_self files_world ∧
  content (fst (on_paste files_world)) "/empty/a.txt" = Some (File "A") ∧
  content (fst (on_paste files_world)) "/empty/v1.2" = None.
Proof.
  split; [reflexivity|].
  pose proof (@paste_source_order platform toy_laws files_world eq_refl)
    as [H _].
  destruct (H _ eq_refl eq_refl) as (_ & Hself & _).
  split; [exact Hself|]. split; reflexivity.
Defined.

(** C6, as stated, fails for a directory whose name has a dot: pasting
    the directory [v1.2] next to a namesake gives [v1_copy.2], the suffix
    before what [splitext] takes for an extension, and not [v1.2_copy]. *)
Lemma directory_suffix_before_extension :
  let w' := fst (on_paste copy_world) in
  fs_isdir (w_fs copy_world) "/src/v1.2" = true ∧
  fs_isdir (w_fs copy_world) "/dst/v1.2" = true ∧
  "/src/v1.2" ∈ _clipboard_paths (w_self copy_world) ∧
  _current_path (w_self copy_world) = "/dst" ∧
  content w' "/dst/v1.2_copy" = None ∧
  content w' "/dst/v1_copy.2" = Some Dir ∧
  content w' "/dst/v1_copy.2/x" = Some (File "X").
Proof.
  repeat split; try reflexivity.
  apply elem_of_cons. right. apply elem_of_cons. by left.
Qed.

Lemma conflict_renamed_once_witness :
  fs_exists (w_fs copy_world) "/src/a.txt" = true ∧
  abspath "/src/a.txt" ≠ abspath "/dst" ∧
  fs_exists (w_fs copy_world) "/dst/a.txt" = true ∧
  paste_internal_entry "/dst" false (0, []) "/src/a.txt" copy_world =
    try_except
      (bind (copy_item "/src/a.txt" "/dst/a_copy.txt") (λ _, ret (1, [])))
      (λ e, bind (warning "Paste Error" e)
                 (λ _, ret (0, [("/src/a.txt", e)]))) copy_world ∧
  content (fst (paste_internal_entry "/dst" false (0, []) "/src/a.txt" copy_world))
    "/dst/a_copy.txt" = Some (File "A") ∧
  content (fst (paste_internal_entry "/dst" false (0, []) "/src/a.txt" copy_world))
    "/dst/a.txt" = Some (File "old").
Proof.
  assert (abspath "/src/a.txt" ≠ abspath "/dst") as Hne by (by vm_compute).
  split; [reflexivity|]. split; [exact Hne|]. split; [reflexivity|].
  pose proof (@conflict_renamed_once platform "/dst" "/src/a.txt" copy_world
                eq_refl Hne eq_refl) as (_ & _ & _ & _ & H & _).
  split; [exact (H (0, []))|]. split; reflexivity.
Defined.

Lemma cut_move_then_fallback_witness :
  fs_exists (w_fs cut_world) "/src/b.txt" = true ∧
  toy_abspath "/src/b.txt" ≠ toy_abspath "/empty" ∧
  paste_internal_entry "/empty" true (0, []) "/src/b.txt" cut_world =
    (show (cut_failure_warning "b.txt" (denied "/src/b.txt")) cut_world,
     Ok (0, [("/src/b.txt", denied "/src/b.txt")])).
Proof.
  assert (toy_abspath "/src/b.txt" ≠ toy_abspath "/empty") as Hne
    by (by vm_compute).
  split; [reflexivity|]. split; [exact Hne|].
  pose proof (@cut_move_then_fallback platform "/empty" "/src/b.txt" 0 []
                cut_world eq_refl Hne) as (_ & Hfall & _).
  destruct (Hfall (denied "/src/b.txt") eq_refl) as (Hcopy & _).
  exact (Hcopy (denied "/src/b.txt") eq_refl).
Defined.

(** C7, as stated, fails where the primitives give up half way: the
    directory [/pin] cannot be unlinked, so [shutil.move] copies it to
    [/empty/pin], empties it and raises when it comes to removing it; the
    fallback copy then raises because [/empty/pin] is there.  The entry
    is recorded as failed with the message of the fallback, yet the source
    is not as it was: [/pin/x] is gone. *)
Lemma failed_cut_leaves_source_emptied :
  let entry := paste_internal_entry "/empty" true (0, []) "/pin" pin_world in
  let w' := fst (on_paste pin_world) in
  content pin_world "/pin/x" = Some (File "P") ∧
  snd (shutil_move (w_fs pin_world) "/pin" "/empty/pin") =
    Raise (denied "/pin") ∧
  snd entry = Ok (0, [("/pin", file_exists "/empty/pin")]) ∧
  content (fst entry) "/pin" = Some Dir ∧
  content (fst entry) "/pin/x" = None ∧
  content (fst entry) "/empty/pin/x" = Some (File "P") ∧
  content w' "/pin/x" = None ∧
  w_ui w' =
    [MsgWarning "Cut/Paste Error"
       "Failed to move 'pin': [Errno 17] File exists: '/empty/pin'";
     StatusText "Paste partially completed (0 item(s), 1 failed)";
     SetRoot "/empty"].
Proof. vm_compute. repeat split. Qed.

(** C8, as stated, fails at delete time: a selected path that no longer
    exists is not skipped in silence, its removal raises and the error is
    shown to the user. *)
Lemma delete_reports_vanished_path :
  let w' := fst (on_delete Yes delete_world) in
  selected_paths_of filePath (w_selection delete_world) =
    ["/src/a.txt"; "/src/gone.txt"] ∧
  fs_exists (w_fs delete_world) "/src/a.txt" = true ∧
  fs_exists (w_fs delete_world) "/src/gone.txt" = false ∧
  fs_exists (w_fs w') "/src/a.txt" = false ∧
  w_ui w' =
    [MsgQuestion "Delete?" "Delete 2 items? This will permanently delete them.";
     MsgWarning "Delete error"
       "[Errno 2] No such file or directory: '/src/gone.txt'";
     Reload;
     StatusText "Deleted 2 items"].
Proof. by vm_compute. Qed.

Lemma vanished_source_witness :
  fs_exists (w_fs delete_world) "/src/gone.txt" = false ∧
  paste_internal_entry "/dst" false (0, []) "/src/gone.txt" delete_world =
    (delete_world, Ok (0, [])) ∧
  delete_entry "/src/gone.txt" delete_world =
    (show (MsgWarning "Delete error" (missing "/src/gone.txt")) delete_world,
     Ok tt) ∧
  last (w_ui (fst (on_delete Yes delete_world))) =
    Some (StatusText "Deleted 2 items").
Proof.
  split; [reflexivity|].
  pose proof (@vanished_source platform toy_laws "/src/gone.txt" delete_world
                eq_refl) as (_ & Hint & Hdel & Hcount).
  split; [exact (proj1 (Hint "/dst" false (0, []) []))|].
  split; [exact (proj1 Hdel)|].
  refine (proj2 (Hcount delete_world _)).
  change ("/src/gone.txt" ∈ ["/src/a.txt"; "/src/gone.txt"]).
  repeat constructor.
Defined.

Lemma delete_counts_attempts_witness :
  selected_paths_of filePath (w_selection delete_world) ≠ [] ∧
  w_ui (fst (on_delete Yes delete_world)) =
    [MsgQuestion "Delete?" "Delete 2 items? This will permanently delete them.";
     MsgWarning "Delete error"
       "[Errno 2] No such file or directory: '/src/gone.txt'";
     Reload;
     StatusText "Deleted 2 items"].
Proof.
  assert (selected_paths_of filePath (w_selection delete_world) ≠ []) as Hne
    by (by vm_compute).
  split; [exact Hne|].
  pose proof (@delete_counts_attempts platform delete_world Hne) as (H & _).
  rewrite H. reflexivity.
Defined.

Lemma selected_paths_first_seen_witness :
  Forall (λ index, os_path.isabs (filePath index) = true)
         (w_selection copy_world) ∧
  selected_paths copy_world = (copy_world, Ok ["/src/a.txt"; "/src/v1.2"]).
Proof.
  assert (Forall (λ index, os_path.isabs (filePath index) = true)
                 (w_selection copy_world)) as Habs
    by (repeat constructor).
  split; [exact Habs|].
  exact (proj1 (@selected_paths_first_seen platform copy_world Habs)).
Defined.

(** ** Navigation and the frame properties on concrete worlds *)

Lemma visited_world_reachable : reachable visited_world.
Proof.
  unfold visited_world. repeat apply reachable_after. apply reachable_init.
Qed.

Lemma pasted_world_reachable : reachable pasted_world.
Proof.
  unfold pasted_world. repeat apply reachable_after. apply reachable_init.
Qed.

Lemma history_always_well_formed_witness :
  reachable visited_world ∧
  _history (w_self visited_world) = ["/home/user"; "/dst"; "/src"] ∧
  _history_index (w_self visited_world) = 1%Z ∧
  _current_path (w_self visited_world) ∈ _history (w_self visited_world).
Proof.
  split; [exact visited_world_reachable|]. split; [reflexivity|].
  split; [reflexivity|].
  exact (proj1 (proj2 (@history_always_well_formed platform visited_world
                         visited_world_reachable))).
Defined.

Lemma handlers_never_raise_witness :
  reachable visited_world ∧ snd (handle BackClicked visited_world) = Ok tt.
Proof.
  split; [exact visited_world_reachable|].
  exact (@handlers_never_raise platform visited_world BackClicked
           visited_world_reachable).
Defined.

Lemma go_to_path_refused_witness :
  fs_exists (w_fs empty_world) "/gone" = false ∧
  w_self (fst (go_to_path "/gone" empty_world)) = w_self empty_world.
Proof.
  split; [reflexivity|].
  destruct (@go_to_path_refused platform "/gone" empty_world
              (or_introl eq_refl)) as (_ & _ & _ & H & _).
  exact H.
Defined.

Lemma go_to_path_visits_witness :
  reachable (init disk None) ∧
  fs_exists (w_fs (init disk None)) "/src" = true ∧
  index_isValid (w_fs (init disk None)) "/src" = true ∧
  _history (w_self (fst (go_to_path "/src" (init disk None)))) =
    ["/home/user"; "/src"] ∧
  _history_index (w_self (fst (go_to_path "/src" (init disk None)))) = 1%Z.
Proof.
  split; [apply reachable_init|]. split; [reflexivity|]. split; [reflexivity|].
  pose proof (@go_to_path_visits platform "/src" (init disk None)
                (reachable_init disk None) eq_refl eq_refl) as H.
  cbv zeta in H. destruct H as (_ & _ & _ & _ & _ & _ & Hnew & _).
  destruct Hnew as [H1 H2]; [by vm_compute|].
  split; [exact H1|exact H2].
Defined.

Lemma on_back_to_vanished_witness :
  (0 < _history_index (w_self stale_world))%Z ∧
  fs_exists (w_fs stale_world) "/old" = false ∧
  _current_path (w_self (fst (on_back stale_world))) = "/dst" ∧
  _history_index (w_self (fst (on_back stale_world))) = 0%Z.
Proof.
  assert (0 < _history_index (w_self stale_world))%Z as Hpos by (simpl; lia).
  split; [exact Hpos|]. split; [reflexivity|].
  pose proof (@on_back_to_vanished platform stale_world "/old" Hpos
                eq_refl eq_refl) as H.
  cbv zeta in H. destruct H as (_ & _ & H1 & _ & H2 & _).
  split; [exact H1|exact H2].
Defined.

Lemma visit_then_back_witness :
  in_sync (w_self empty_world) ∧
  abspath "/src" ≠ _current_path (w_self empty_world) ∧
  _current_path
    (w_self (fst (on_back (fst (go_to_path "/src" empty_world))))) = "/dst" ∧
  _history
    (w_self (fst (on_back (fst (go_to_path "/src" empty_world))))) =
    ["/dst"; "/src"].
Proof.
  assert (0 ≤ _history_index (w_self empty_world)
          < Z.of_nat (length (_history (w_self empty_world))))%Z as Hidx
    by (simpl; lia).
  assert (abspath "/src" ≠ _current_path (w_self empty_world)) as Hne
    by (by vm_compute).
  split; [reflexivity|]. split; [exact Hne|].
  pose proof (@visit_then_back platform "/src" empty_world Hidx eq_refl
                eq_refl eq_refl Hne eq_refl eq_refl eq_refl) as H.
  cbv zeta in H. destruct H as (_ & H1 & _ & H2 & _).
  split; [exact H1|exact H2].
Defined.

Lemma on_copy_stages_selection_witness :
  selected_paths_of filePath (w_selection copy_world) ≠ [] ∧
  _clipboard_paths (w_self (fst (on_copy copy_world))) =
    ["/src/a.txt"; "/src/v1.2"] ∧
  w_clipboard (fst (on_copy copy_world)) =
    Some {| md_urls := Some [LocalFile "/src/a.txt"; LocalFile "/src/v1.2"] |}.
Proof.
  assert (selected_paths_of filePath (w_selection copy_world) ≠ []) as Hne
    by (by vm_compute).
  split; [exact Hne|].
  pose proof (@on_copy_stages_selection platform copy_world) as H.
  cbv zeta in H. destruct H as [_ H].
  destruct (H Hne) as (_ & H1 & _). split; [exact H1|reflexivity].
Defined.

Lemma copy_then_paste_uses_system_clipboard_witness :
  selected_paths_of filePath (w_selection copy_world) ≠ [] ∧
  fs_isdir (w_fs copy_world) (_current_path (w_self copy_world)) = true ∧
  _clipboard_paths (w_self (fst (on_paste (fst (on_copy copy_world))))) =
    ["/src/a.txt"; "/src/v1.2"] ∧
  last (w_ui (fst (on_paste (fst (on_copy copy_world))))) = Some (SetRoot "/dst").
Proof.
  assert (selected_paths_of filePath (w_selection copy_world) ≠ []) as Hne
    by (by vm_compute).
  split; [exact Hne|]. split; [reflexivity|].
  pose proof (@copy_then_paste_uses_system_clipboard platform toy_laws
                copy_world Hne eq_refl) as H.
  cbv zeta in H. destruct H as (_ & H1 & _).
  split; [exact H1|reflexivity].
Defined.

Lemma internal_paste_tally_witness :
  for_loop ["/src/a.txt"; "/src/b.txt"] (paste_internal_entry "/empty" true)
    (0, []) cut_world =
  (fst (for_loop ["/src/a.txt"; "/src/b.txt"]
          (paste_internal_entry "/empty" true) (0, []) cut_world),
   Ok (1, [("/src/b.txt", denied "/src/b.txt")])) ∧
  1 + length [("/src/b.txt", denied "/src/b.txt")] ≤ 2.
Proof.
  assert (for_loop ["/src/a.txt"; "/src/b.txt"]
            (paste_internal_entry "/empty" true) (0, []) cut_world =
          (fst (for_loop ["/src/a.txt"; "/src/b.txt"]
                  (paste_internal_entry "/empty" true) (0, []) cut_world),
           Ok (1, [("/src/b.txt", denied "/src/b.txt")]))) as Hloop
    by (by vm_compute).
  split; [exact Hloop|].
  exact (proj1 (@internal_paste_tally platform "/empty" true
                  ["/src/a.txt"; "/src/b.txt"] cut_world _ 1
                  [("/src/b.txt", denied "/src/b.txt")] Hloop)).
Defined.

Lemma only_confirmed_delete_removes_witness :
  reachable visited_world ∧
  fs_exists (w_fs visited_world) "/src/a.txt" = true ∧
  fs_exists (w_fs (after PasteClicked visited_world)) "/src/a.txt" = true ∧
  w_fs (after BackClicked visited_world) = w_fs visited_world.
Proof.
  split; [exact visited_world_reachable|]. split; [reflexivity|].
  split.
  - exact (proj1 (@only_confirmed_delete_removes platform toy_laws
                    visited_world PasteClicked visited_world_reachable
                    ltac:(discriminate) ltac:(discriminate))
             "/src/a.txt" eq_refl).
  - exact (proj2 (@only_confirmed_delete_removes platform toy_laws
                    visited_world BackClicked visited_world_reachable
                    ltac:(discriminate) ltac:(discriminate)) eq_refl).
Defined.

Lemma staged_entry_changes_only_by_copy_witness :
  reachable pasted_world ∧
  _clipboard_paths (w_self (after PasteClicked pasted_world)) = ["/src/a.txt"].
Proof.
  split; [exact pasted_world_reachable|].
  exact (proj1 (@staged_entry_changes_only_by_copy platform pasted_world
                  PasteClicked pasted_world_reachable eq_refl)).
Defined.

Lemma staged_entry_has_no_duplicates_witness :
  reachable pasted_world ∧ NoDup (_clipboard_paths (w_self pasted_world)).
Proof.
  split; [exact pasted_world_reachable|].
  exact (@staged_entry_has_no_duplicates platform pasted_world
           pasted_world_reachable).
Defined.

Lemma system_clipboard_written_only_by_copy_witness :
  is_copy PasteClicked = false ∧
  w_clipboard (after PasteClicked files_world) = w_clipboard files_world.
Proof.
  split; [reflexivity|].
  exact (@system_clipboard_written_only_by_copy platform files_world
           PasteClicked eq_refl ltac:(discriminate)).
Defined.

Lemma renamed_destination_differs_witness :
  fs_exists (w_fs copy_world) "/dst/a.txt" = true ∧
  resolve_conflict "/dst" "a.txt" "/dst/a.txt" copy_world =
    (copy_world, Ok "/dst/a_copy.txt") ∧
  "/dst/a_copy.txt" ≠ "/dst/a.txt".
Proof.
  split; [reflexivity|].
  destruct (@renamed_destination_differs platform "/dst" "/src/a.txt"
              copy_world eq_refl) as (dest & Hres & _ & Hne).
  assert (dest = "/dst/a_copy.txt") as -> by (by injection Hres).
  split; [exact Hres|exact Hne].
Defined.

Lemma on_address_enter_blank_witness :
  pystr.all_space blank_text = true ∧
  on_address_enter blank_text empty_world = (empty_world, Ok tt).
Proof.
  split; [reflexivity|].
  exact (@on_address_enter_blank platform blank_text empty_world eq_refl).
Defined.

End ToyFacts.
